(** * Uber Fare Predictor: the Streamlit script [main.py], embedded and verified

    The script is one function, [main], run top to bottom on every
    interaction.  It reads widget values, may call two outside services (the
    Nominatim geocoder and the unpickled model's [predict]) and writes to the
    page.  The embedding below keeps that shape:

    - Python values are a small tagged union ([pyval]); Python floats are
      IEEE binary64 numbers (Rocq's primitive floats), so that the literals of
      the source denote the same numbers here;
    - exceptions are values ([exn]) and a computation either returns or
      raises ([result]);
    - everything the script does to the page or asks of the outside world is
      written to a log of [event]s by a small state monad ([M]);
    - the widget values of one run are a record ([widgets]) and the behaviour
      of the outside world during that run is a record of oracles ([world]). *)

From Stdlib Require Import ZArith String Ascii List Bool Lia.
From Stdlib Require Import PrimFloat FloatOps SpecFloat.
From Stdlib Require Import DecimalString DecimalPos DecimalN.
Import ListNotations.

#[local] Set Warnings "-inexact-float,-register-all".

Local Open Scope string_scope.
Local Open Scope Z_scope.

(* ================================================================= *)
(** ** Python exceptions and results *)

(** The exception classes the script can meet.  [KeyboardInterrupt] and
    [SystemExit] derive from [BaseException] only: [except Exception] does
    not catch them. *)
Inductive exc_class : Type :=
| FileNotFoundError
| KeyError
| TypeError
| ValueError
| IndexError
| OverflowError
| OtherException (name : string)
| KeyboardInterrupt
| SystemExit.

Definition isinstance_Exception (c : exc_class) : bool :=
  match c with
  | KeyboardInterrupt | SystemExit => false
  | _ => true
  end.

Definition isinstance_FileNotFoundError (c : exc_class) : bool :=
  match c with
  | FileNotFoundError => true
  | _ => false
  end.

(** An exception object: its class and [str(e)]. *)
Record exn : Type := mkExn { exc_type : exc_class; exc_str : string }.

Inductive result (A : Type) : Type :=
| Ok (a : A)
| Raise (e : exn).

Arguments Ok {A} a.
Arguments Raise {A} e.

(* ================================================================= *)
(** ** Python values *)

Inductive pyval : Type :=
| VNone
| VInt (z : Z)
| VFloat (x : float)
| VStr (s : string)
| VTuple (items : list pyval).

(** [v is None] *)
Definition is_None (v : pyval) : bool :=
  match v with
  | VNone => true
  | _ => false
  end.

(** Truth value of a string: [if s:] *)
Definition str_truthy (s : string) : bool :=
  match s with
  | EmptyString => false
  | String _ _ => true
  end.

(** [a, b = v]: unpacking into two targets. *)
Definition unpack2 (v : pyval) : result (pyval * pyval) :=
  match v with
  | VTuple [a; b] => Ok (a, b)
  | VTuple (_ :: _ :: _ :: _) =>
      Raise (mkExn ValueError "too many values to unpack (expected 2)")
  | VTuple _ =>
      Raise (mkExn ValueError "not enough values to unpack (expected 2)")
  | VStr (String a (String b EmptyString)) =>
      Ok (VStr (String a EmptyString), VStr (String b EmptyString))
  | VStr (String _ (String _ (String _ _))) =>
      Raise (mkExn ValueError "too many values to unpack (expected 2)")
  | VStr _ =>
      Raise (mkExn ValueError "not enough values to unpack (expected 2)")
  | VNone =>
      Raise (mkExn TypeError "cannot unpack non-iterable NoneType object")
  | VInt _ =>
      Raise (mkExn TypeError "cannot unpack non-iterable int object")
  | VFloat _ =>
      Raise (mkExn TypeError "cannot unpack non-iterable float object")
  end.

(** A [dict] with string keys, in insertion order. *)
Definition dict : Type := list (string * pyval).

Definition keys (d : dict) : list string := map fst d.

Fixpoint dict_get (d : dict) (k : string) : option pyval :=
  match d with
  | [] => None
  | (k', v) :: d' => if String.eqb k k' then Some v else dict_get d' k
  end.

(** [repr(s)] of a [str], as [str(KeyError(s))] shows the missing key:
    single quotes, or double quotes when the text holds a single quote and no
    double one; the quote and the backslash escaped; tab, newline and carriage
    return as [\t], [\n], [\r]; other control characters as [\xhh].  The
    bytes of a character outside ASCII are kept, as they are for every
    printable character. *)
Fixpoint contains_char (c : ascii) (s : string) : bool :=
  match s with
  | EmptyString => false
  | String c' s' => Ascii.eqb c c' || contains_char c s'
  end.

Definition hex_digit (n : nat) : ascii :=
  nth n ["0"; "1"; "2"; "3"; "4"; "5"; "6"; "7"; "8"; "9";
         "a"; "b"; "c"; "d"; "e"; "f"]%char "0"%char.

Definition repr_char (quote c : ascii) : string :=
  let n := nat_of_ascii c in
  if Ascii.eqb c quote || Ascii.eqb c "\"%char then String "\" (String c EmptyString)
  else if Nat.eqb n 9 then "\t"
  else if Nat.eqb n 10 then "\n"
  else if Nat.eqb n 13 then "\r"
  else if Nat.ltb n 32 || Nat.eqb n 127 then
    String "\" (String "x" (String (hex_digit (Nat.div n 16))
                                   (String (hex_digit (Nat.modulo n 16)) EmptyString)))
  else String c EmptyString.

Fixpoint repr_body (quote : ascii) (s : string) : string :=
  match s with
  | EmptyString => EmptyString
  | String c s' => repr_char quote c ++ repr_body quote s'
  end.

Definition repr_str (s : string) : string :=
  let quote :=
    if contains_char "'" s && negb (contains_char "034" s) then "034"%char
    else "'"%char in
  String quote (repr_body quote s ++ String quote EmptyString).

(** [d[k]] *)
Definition getitem (d : dict) (k : string) : result pyval :=
  match dict_get d k with
  | Some v => Ok v
  | None => Raise (mkExn KeyError (repr_str k))
  end.

(** [seq[0]] on the sequence a predictor returns. *)
Definition first_item (seq : list pyval) : result pyval :=
  match seq with
  | v :: _ => Ok v
  | [] => Raise (mkExn IndexError "index 0 is out of bounds for axis 0 with size 0")
  end.

(* ================================================================= *)
(** ** Fixed-point formatting: [format(v, ".<prec>f")]

    CPython prints the decimal number with [prec] fractional digits that is
    nearest to the exact value of the binary64 number, ties going to the even
    neighbour, and keeps the sign bit (also of a zero). *)

(** [num / den] rounded to the nearest integer, ties to even ([den > 0]). *)
Definition round_half_even (num den : Z) : Z :=
  let q := num / den in
  let r := num mod den in
  match 2 * r ?= den with
  | Lt => q
  | Gt => q + 1
  | Eq => if Z.even q then q else q + 1
  end.

(** [m * 2^e * 10^prec] rounded to an integer. *)
Definition scaled (prec : nat) (m : positive) (e : Z) : Z :=
  let num := Z.pos m * 10 ^ Z.of_nat prec in
  if 0 <=? e then num * 2 ^ e else round_half_even num (2 ^ (- e)).

Definition digits (n : Z) : string :=
  NilZero.string_of_uint (N.to_uint (Z.to_N n)).

Fixpoint zeros (k : nat) : string :=
  match k with
  | O => ""
  | S k' => String "0" (zeros k')
  end.

(** The non-negative integer [n], read as [n / 10^prec], in decimal. *)
Definition fixed_point (prec : nat) (n : Z) : string :=
  match prec with
  | O => digits n
  | S _ =>
      let p := 10 ^ Z.of_nat prec in
      let frac := digits (n mod p) in
      digits (n / p) ++ "." ++ zeros (prec - String.length frac) ++ frac
  end.

Definition sign_str (s : bool) : string := if s then "-" else "".

Definition sf_format_f (prec : nat) (x : spec_float) : string :=
  match x with
  | S754_nan => "nan"
  | S754_infinity s => sign_str s ++ "inf"
  | S754_zero s => sign_str s ++ fixed_point prec 0
  | S754_finite s m e => sign_str s ++ fixed_point prec (scaled prec m e)
  end.

Definition float_format_f (prec : nat) (x : float) : string :=
  sf_format_f prec (Prim2SF x).

(** [float(z)] for a Python [int]: the nearest binary64 number. *)
Definition float_of_int (z : Z) : result spec_float :=
  match binary_normalize 53 1024 z 0 false with
  | S754_infinity _ =>
      Raise (mkExn OverflowError "int too large to convert to float")
  | x => Ok x
  end.

Definition format_f (prec : nat) (v : pyval) : result string :=
  match v with
  | VFloat x => Ok (float_format_f prec x)
  | VInt z =>
      match float_of_int z with
      | Ok x => Ok (sf_format_f prec x)
      | Raise e => Raise e
      end
  | VStr _ =>
      Raise (mkExn ValueError "Unknown format code 'f' for object of type 'str'")
  | VNone =>
      Raise (mkExn TypeError "unsupported format string passed to NoneType.__format__")
  | VTuple _ =>
      Raise (mkExn TypeError "unsupported format string passed to tuple.__format__")
  end.

(* ================================================================= *)
(** ** [datetime]: the calendar arithmetic of the standard library

    [date.weekday()] is [(self.toordinal() + 6) % 7], and the ordinal of a
    date counts days from 0001-01-01 (ordinal 1) in the proleptic Gregorian
    calendar.  The definitions follow the library's [_is_leap],
    [_days_before_year], [_days_before_month] and [_ymd2ord].  Python's [//]
    and [%] on integers round towards minus infinity, as [Z.div] and
    [Z.modulo] do for a positive divisor. *)

Module datetime.

Record date : Type := mkDate { date_year : Z; date_month : Z; date_day : Z }.

Record time : Type :=
  mkTime { time_hour : Z; time_minute : Z; time_second : Z; time_microsecond : Z }.

Record datetime : Type :=
  mkDatetime { year : Z; month : Z; day : Z;
               hour : Z; minute : Z; second : Z; microsecond : Z }.

(** [datetime.combine(date, time)]: the fields are copied; nothing is
    shifted. *)
Definition combine (d : date) (t : time) : datetime :=
  mkDatetime (date_year d) (date_month d) (date_day d)
             (time_hour t) (time_minute t) (time_second t) (time_microsecond t).

Definition _DAYS_IN_MONTH : list Z :=
  [-1; 31; 28; 31; 30; 31; 30; 31; 31; 30; 31; 30; 31].

(** The running sums of [_DAYS_IN_MONTH[1:]], after the placeholder [-1]. *)
Definition _DAYS_BEFORE_MONTH : list Z :=
  -1 :: rev (snd (fold_left
                    (fun '(dbm, acc) dim => (dbm + dim, dbm :: acc))
                    (tl _DAYS_IN_MONTH) (0, []))).

Definition _is_leap (y : Z) : bool :=
  (y mod 4 =? 0) && (negb (y mod 100 =? 0) || (y mod 400 =? 0)).

(** The library asserts [1 <= month <= 12] here as well. *)
Definition _days_in_month (year month : Z) : Z :=
  if (month =? 2) && _is_leap year then 29
  else nth (Z.to_nat month) _DAYS_IN_MONTH 0.

Definition _days_before_year (year : Z) : Z :=
  let y := year - 1 in
  y * 365 + y / 4 - y / 100 + y / 400.

(** The library asserts [1 <= month <= 12]; every [date] object satisfies
    it, and outside that range the table lookup below yields 0. *)
Definition _days_before_month (year month : Z) : Z :=
  nth (Z.to_nat month) _DAYS_BEFORE_MONTH 0
  + (if (2 <? month) && _is_leap year then 1 else 0).

Definition _ymd2ord (year month day : Z) : Z :=
  _days_before_year year + _days_before_month year month + day.

Definition toordinal (dt : datetime) : Z :=
  _ymd2ord (year dt) (month dt) (day dt).

Definition weekday (dt : datetime) : Z := (toordinal dt + 6) mod 7.

End datetime.

(* ================================================================= *)
(** ** The page, the outside world, and the monad of one script run *)

(** [pd.DataFrame({...})]: the columns in insertion order, each with its
    list of cells. *)
Definition DataFrame : Type := list (string * list pyval).

Inductive written : Type :=
| WStr (s : string)
| WFrame (df : DataFrame).

(** What one run does, in order: the Streamlit calls that put something on
    the page, and the three calls that leave the process.  Layout-only
    context managers ([st.container], [st.columns]) and presentation
    arguments ([format], [min_value], [max_value], [index], [type],
    [use_container_width]) are not recorded. *)
Inductive event : Type :=
| StTitle (body : string)
| StMarkdown (body : string) (unsafe_allow_html : bool)
| StSubheader (body : string)
| StSelectbox (label : string) (options : list string) (key : string)
| StTextInput (label key : string)
| StNumberInput (label : string) (value : pyval) (key : option string)
| StSpinner (text : string)
| StInfo (body : string)
| StWarning (body : string)
| StError (body : string)
| StDateInput (label : string)
| StTimeInput (label : string)
| StButton (label : string)
| StWrite (w : written)
| OpenAndUnpickle (path : string)
| Geocode (user_agent address : string)
| Predict (input_data : DataFrame).

(** The unpickled object: whether it is truthy ([if not model]) and what
    [model.predict(input_data)] does.  The truth test is taken to return; an
    object whose [__bool__] or [__len__] raises is not modelled. *)
Record model : Type :=
  mkModel { model_truthy : bool;
            model_predict : DataFrame -> result (list pyval) }.

(** The outside world during one run.  [pickle_load] is the outcome of
    opening and unpickling the model file.  [geocode n address] is the
    outcome of the geocoder call made after [n] earlier calls of the same
    run: a found location with its latitude and longitude, no match
    ([None]), or an exception. *)
Record world : Type :=
  mkWorld { pickle_load : result model;
            geocode : nat -> string -> result (option (float * float)) }.

(** The state of a run: the log, newest event first, and the number of
    geocoder calls made so far. *)
Record state : Type := mkState { log : list event; geocode_calls : nat }.

Definition initial : state := mkState [] 0.

(** The events of a run in the order they happened. *)
Definition trace (s : state) : list event := rev (log s).

Definition M (A : Type) : Type := state -> result A * state.

Definition ret {A : Type} (a : A) : M A := fun s => (Ok a, s).

Definition bind {A B : Type} (c : M A) (k : A -> M B) : M B :=
  fun s =>
    match c s with
    | (Ok a, s') => k a s'
    | (Raise e, s') => (Raise e, s')
    end.

Definition lift {A : Type} (r : result A) : M A := fun s => (r, s).

Definition emit (ev : event) : M unit :=
  fun s => (Ok tt, mkState (ev :: log s) (geocode_calls s)).

(** [try: body / except Exception as e: handler e] *)
Definition try_except {A : Type} (body : M A) (handler : exn -> M A) : M A :=
  fun s =>
    match body s with
    | (Ok a, s') => (Ok a, s')
    | (Raise e, s') =>
        if isinstance_Exception (exc_type e) then handler e s'
        else (Raise e, s')
    end.

Declare Scope run_scope.
Delimit Scope run_scope with run.
Notation "x <- c1 ;; c2" := (bind c1 (fun x => c2))
  (at level 61, c1 at next level, right associativity) : run_scope.
Notation "' pat <- c1 ;; c2" := (bind c1 (fun x => match x with pat => c2 end))
  (at level 61, pat pattern, c1 at next level, right associativity) : run_scope.
Notation "c1 ;; c2" := (bind c1 (fun _ => c2))
  (at level 61, right associativity) : run_scope.
Local Open Scope run_scope.

(** The outside calls. *)
Definition open_and_unpickle (w : world) (path : string) : M model :=
  fun s => (pickle_load w,
            mkState (OpenAndUnpickle path :: log s) (geocode_calls s)).

Definition nominatim_geocode (w : world) (user_agent address : string)
  : M (option (float * float)) :=
  fun s => (geocode w (geocode_calls s) address,
            mkState (Geocode user_agent address :: log s) (S (geocode_calls s))).

Definition predict (m : model) (input_data : DataFrame) : M (list pyval) :=
  fun s => (model_predict m input_data,
            mkState (Predict input_data :: log s) (geocode_calls s)).

(** Widgets put themselves on the page and return their current value. *)
Definition st_selectbox (label : string) (options : list string) (key value : string)
  : M string :=
  emit (StSelectbox label options key) ;; ret value.

Definition st_text_input (label key value : string) : M string :=
  emit (StTextInput label key) ;; ret value.

Definition st_number_input {A : Type} (label : string) (default : pyval)
  (key : option string) (value : A) : M A :=
  emit (StNumberInput label default key) ;; ret value.

Definition st_date_input (label : string) (value : datetime.date) : M datetime.date :=
  emit (StDateInput label) ;; ret value.

Definition st_time_input (label : string) (value : datetime.time) : M datetime.time :=
  emit (StTimeInput label) ;; ret value.

Definition st_button (label : string) (clicked : bool) : M bool :=
  emit (StButton label) ;; ret clicked.

Definition st_title (body : string) : M unit := emit (StTitle body).
Definition st_markdown (body : string) (unsafe_allow_html : bool) : M unit :=
  emit (StMarkdown body unsafe_allow_html).
Definition st_subheader (body : string) : M unit := emit (StSubheader body).
Definition st_spinner (text : string) : M unit := emit (StSpinner text).
Definition st_info (body : string) : M unit := emit (StInfo body).
Definition st_warning (body : string) : M unit := emit (StWarning body).
Definition st_error (body : string) : M unit := emit (StError body).
Definition st_write (w : written) : M unit := emit (StWrite w).

(* ================================================================= *)
(** ** The script *)

(** [load_model] (lines 13-27).  One execution of the body is modelled; the
    [st.cache_resource] decorator only saves later executions. *)
Definition load_model (w : world) : M (option model) :=
  try_except
    (model <- open_and_unpickle w "model.pkr" ;;
     ret (Some model))
    (fun e =>
       if isinstance_FileNotFoundError (exc_type e) then
         st_error "Model file 'model.pkr' not found. Please ensure it is in the same directory." ;;
         ret None
       else
         st_error ("Error loading model: " ++ exc_str e) ;;
         ret None).

(** [get_coords] (lines 30-41). *)
Definition get_coords (w : world) (address : string) : M (pyval * pyval) :=
  try_except
    (location <- nominatim_geocode w "uber_fare_app_v1" address ;;
     match location with
     | Some (latitude, longitude) => ret (VFloat latitude, VFloat longitude)
     | None => ret (VNone, VNone)
     end)
    (fun e =>
       st_error ("Geocoding error: " ++ exc_str e) ;;
       ret (VNone, VNone)).

(** [NYC_LOCATIONS] (lines 44-57). *)
Definition coords (lat lon : float) : pyval := VTuple [VFloat lat; VFloat lon].

Definition NYC_LOCATIONS : dict :=
  [ ("Select a location...", VNone);
    ("JFK Airport", coords 40.6413 (-73.7781));
    ("LaGuardia Airport", coords 40.7769 (-73.8740));
    ("Times Square", coords 40.7580 (-73.9855));
    ("Empire State Building", coords 40.7488 (-73.9857));
    ("Central Park", coords 40.7851 (-73.9683));
    ("One World Trade Center", coords 40.7127 (-74.0134));
    ("Chrysler Building", coords 40.7516 (-73.9755));
    ("Brooklyn Bridge", coords 40.7061 (-73.9969));
    ("Grand Central Terminal", coords 40.7527 (-73.9772));
    ("Custom Address", VStr "CUSTOM");
    ("Manual Coordinates", VStr "MANUAL") ].

(** The pickup column (lines 73-117) and the dropoff column (lines 120-167)
    are the same text up to the words below, so they share one definition. *)
Inductive side : Type := Pickup | Dropoff.

Definition Title (sd : side) : string :=
  match sd with Pickup => "Pickup" | Dropoff => "Dropoff" end.

Definition lower (sd : side) : string :=
  match sd with Pickup => "pickup" | Dropoff => "dropoff" end.

Definition heading (sd : side) : string :=
  match sd with Pickup => "📍 Pickup" | Dropoff => "🏁 Dropoff" end.

(** The current values of the widgets of one column. *)
Record location_widgets : Type :=
  mkLocationWidgets { select_value : string;
                      custom_value : string;
                      lat_input_value : float;
                      lon_input_value : float }.

(** The current values of all widgets. *)
Record widgets : Type :=
  mkWidgets { pickup : location_widgets;
              dropoff : location_widgets;
              date_value : datetime.date;
              time_value : datetime.time;
              passengers_value : Z;
              estimate_clicked : bool }.

(** From the chosen option to [(lat, lon)] (lines 81-113 and 129-161). *)
Definition resolve_location (w : world) (sd : side) (ui : location_widgets)
  (option : string) : M (pyval * pyval) :=
  if (option =? "Custom Address")%string then
    address <- st_text_input ("Enter " ++ Title sd ++ " Address")
                             (lower sd ++ "_custom") (custom_value ui) ;;
    if str_truthy address then
      st_spinner ("Finding " ++ lower sd ++ " location...") ;;
      '(lat, lon) <- get_coords w address ;;
      (if is_None lat then
         st_warning ("Could not find " ++ lower sd ++ " address. Please try again.")
       else ret tt) ;;
      ret (lat, lon)
    else ret (VNone, VNone)
  else if (option =? "Manual Coordinates")%string then
    lat <- st_number_input (Title sd ++ " Latitude") (VFloat 40.7128)
                           (Some (lower sd ++ "_lat_input")) (lat_input_value ui) ;;
    lon <- st_number_input (Title sd ++ " Longitude") (VFloat (-74.0060))
                           (Some (lower sd ++ "_lon_input")) (lon_input_value ui) ;;
    ret (VFloat lat, VFloat lon)
  else if str_truthy option && negb (option =? "Select a location...")%string then
    entry <- lift (getitem NYC_LOCATIONS option) ;;
    lift (unpack2 entry)
  else ret (VNone, VNone).

(** One column: heading, selector, resolution, echo of the coordinates. *)
Definition location_column (w : world) (sd : side) (ui : location_widgets)
  : M (pyval * pyval) :=
  st_subheader (heading sd) ;;
  option <- st_selectbox ("Choose " ++ Title sd ++ " Location")
                         (keys NYC_LOCATIONS) (lower sd ++ "_select")
                         (select_value ui) ;;
  '(lat, lon) <- resolve_location w sd ui option ;;
  (if negb (is_None lat) && negb (is_None lon) then
     slat <- lift (format_f 6 lat) ;;
     slon <- lift (format_f 6 lon) ;;
     st_info ("**" ++ Title sd ++ " Coordinates:** " ++ slat ++ ", " ++ slon)
   else ret tt) ;;
  ret (lat, lon).

(** The data frame of lines 196-206. *)
Definition input_data_of (pickup_lon pickup_lat dropoff_lon dropoff_lat : pyval)
  (passengers hour day_of_week : Z) : DataFrame :=
  [ ("pickup_longitude", [pickup_lon]);
    ("pickup_latitude", [pickup_lat]);
    ("dropoff_longitude", [dropoff_lon]);
    ("dropoff_latitude", [dropoff_lat]);
    ("passenger_count", [VInt passengers]);
    ("hour", [VInt hour]);
    ("day_of_week", [VInt day_of_week]) ].

Definition nl : string := String "010"%char EmptyString.
Definition dq : string := String "034"%char EmptyString.
Definition sp16 : string := "                ".
Definition sp20 : string := "                    ".

(** The f-string of lines 213-218, with [fare] already formatted. *)
Definition fare_html (fare : string) : string :=
  nl ++ sp16 ++ "<div style=" ++ dq
     ++ "text-align: center; padding: 5px; background-color: transparent; border-radius: 10px; margin-top: 5px;"
     ++ dq ++ ">" ++
  nl ++ sp20 ++ "<h3>Estimated Fare</h3>" ++
  nl ++ sp20 ++ "<h1 style=" ++ dq ++ "color: #00CC00;" ++ dq ++ ">$" ++ fare ++ "</h1>" ++
  nl ++ sp16 ++ "</div>" ++
  nl ++ sp16.

(** The body of [if st.button("Estimate Fare", ...)] (lines 185-225). *)
Definition estimate_fare (m : model)
  (pickup_lat pickup_lon dropoff_lat dropoff_lon : pyval)
  (ride_date : datetime.date) (ride_time : datetime.time) (passengers : Z) : M unit :=
  if is_None pickup_lat || is_None dropoff_lat then
    st_error "Please select valid Pickup and Dropoff locations."
  else
    let ride_datetime := datetime.combine ride_date ride_time in
    let hour := datetime.hour ride_datetime in
    let day_of_week := datetime.weekday ride_datetime in
    let input_data :=
      input_data_of pickup_lon pickup_lat dropoff_lon dropoff_lat
                    passengers hour day_of_week in
    try_except
      (prediction <- predict m input_data ;;
       fare <- lift (first_item prediction) ;;
       shown <- lift (format_f 2 fare) ;;
       st_markdown (fare_html shown) true)
      (fun e =>
         st_error ("Prediction failed: " ++ exc_str e) ;;
         st_write (WStr "Debug info - Input Data:") ;;
         st_write (WFrame input_data)).

(** [main] (lines 60-225): [page] is what follows the model check (lines
    68-225). *)
Definition page (w : world) (ui : widgets) (m : model) : M unit :=
  '(pickup_lat, pickup_lon) <- location_column w Pickup (pickup ui) ;;
  '(dropoff_lat, dropoff_lon) <- location_column w Dropoff (dropoff ui) ;;
  st_markdown "---" false ;;
  ride_date <- st_date_input "Date" (date_value ui) ;;
  ride_time <- st_time_input "Time" (time_value ui) ;;
  passengers <- st_number_input "Passenger Count" (VInt 1) None
                                (passengers_value ui) ;;
  clicked <- st_button "Estimate Fare" (estimate_clicked ui) ;;
  if clicked then
    estimate_fare m pickup_lat pickup_lon dropoff_lat dropoff_lon
                  ride_date ride_time passengers
  else ret tt.

Definition main (w : world) (ui : widgets) : M unit :=
  st_title "🚖 Uber Fare Predictor" ;;
  st_markdown "Predict your Uber fare in NYC based on location and time." false ;;
  model <- load_model w ;;
  match model with
  | None => ret tt
  | Some m => if negb (model_truthy m) then ret tt else page w ui m
  end.

(** A whole run from a fresh page: what [main] returned and the events in
    the order they happened. *)
Definition run (w : world) (ui : widgets) : result unit * list event :=
  let '(r, s) := main w ui initial in (r, trace s).

(** The data frames handed to [predict] and the addresses handed to the
    geocoder, read off a list of events. *)
Definition requested (evs : list event) : list DataFrame :=
  flat_map (fun ev => match ev with Predict df => [df] | _ => [] end) evs.

Definition geocoded (evs : list event) : list string :=
  flat_map (fun ev => match ev with Geocode _ a => [a] | _ => [] end) evs.

(** The state in which [page] starts: title, introduction and the model
    file read. *)
Definition loaded : state :=
  mkState [ OpenAndUnpickle "model.pkr";
            StMarkdown "Predict your Uber fare in NYC based on location and time." false;
            StTitle "🚖 Uber Fare Predictor" ] 0.

(** A pair as the resolver hands it on: nothing, or two numbers. *)
Definition both_or_neither (lat lon : pyval) : Prop :=
  (lat = VNone /\ lon = VNone) \/ (exists x y, lat = VFloat x /\ lon = VFloat y).


(** One column: the state in which the resolver starts. *)
Definition column_opened (sd : side) (s : state) : state :=
  mkState (StSelectbox ("Choose " ++ Title sd ++ " Location") (keys NYC_LOCATIONS)
                       (lower sd ++ "_select")
           :: StSubheader (heading sd) :: log s)
          (geocode_calls s).

(** The state in which the estimate block starts, after the two columns
    have left the state [s]. *)
Definition inputs_shown (s : state) : state :=
  mkState (StButton "Estimate Fare"
           :: StNumberInput "Passenger Count" (VInt 1) None
           :: StTimeInput "Time"
           :: StDateInput "Date"
           :: StMarkdown "---" false
           :: log s)
          (geocode_calls s).

(** An outcome that is not an exception outside [Exception]: whatever it
    raises is an ordinary error. *)
Definition raises_only_errors {A : Type} (r : result A) : Prop :=
  forall e, r = Raise e -> isinstance_Exception (exc_type e) = true.

(** The data frame [estimate_fare] builds from its arguments. *)
Definition feature_row (pickup_lat pickup_lon dropoff_lat dropoff_lon : pyval)
  (ride_date : datetime.date) (ride_time : datetime.time) (passengers : Z) : DataFrame :=
  input_data_of pickup_lon pickup_lat dropoff_lon dropoff_lat passengers
    (datetime.hour (datetime.combine ride_date ride_time))
    (datetime.weekday (datetime.combine ride_date ride_time)).

(** The bodies of the [st.info] calls among a list of events. *)
Definition infos (evs : list event) : list string :=
  flat_map (fun ev => match ev with StInfo body => [body] | _ => [] end) evs.

(** The address a column hands to the geocoder: the typed text, when the
    mode is "Custom Address" and the text is not empty. *)
Definition geocode_request (ui : location_widgets) : list string :=
  if (select_value ui =? "Custom Address")%string && str_truthy (custom_value ui)
  then [custom_value ui] else [].

(** [f"{prediction[0]:.2f}"], as the [try] block computes it from the
    output of [predict]. *)
Definition shown_fare (out : list pyval) : result string :=
  match first_item out with
  | Ok fare => format_f 2 fare
  | Raise e => Raise e
  end.

(** The echo of a resolved pair (lines 117 and 165-167). *)
Definition echo (sd : side) (lat lon : float) : string :=
  "**" ++ Title sd ++ " Coordinates:** "
  ++ float_format_f 6 lat ++ ", " ++ float_format_f 6 lon.

(** A date as the library accepts it, month and day in range. *)
Definition date_ok (d : datetime.date) : bool :=
  (1 <=? datetime.date_month d) && (datetime.date_month d <=? 12)
  && (1 <=? datetime.date_day d)
  && (datetime.date_day d
      <=? datetime._days_in_month (datetime.date_year d) (datetime.date_month d)).

(** The calendar day after [d]. *)
Definition tomorrow (d : datetime.date) : datetime.date :=
  let y := datetime.date_year d in
  let m := datetime.date_month d in
  if datetime.date_day d <? datetime._days_in_month y m then
    datetime.mkDate y m (datetime.date_day d + 1)
  else if m <? 12 then datetime.mkDate y (m + 1) 1
  else datetime.mkDate (y + 1) 1 1.

(** Reading a shown amount back, independently of how it was printed: an
    optional minus sign, decimal digits, a point and exactly two decimal
    digits give the sign and the number of hundredths; any other text gives
    nothing. *)
Definition strip_sign (text : string) : bool * string :=
  match text with
  | String c rest => if Ascii.eqb c "-" then (true, rest) else (false, text)
  | EmptyString => (false, text)
  end.

Fixpoint split_point (text : string) : option (string * string) :=
  match text with
  | EmptyString => None
  | String c rest =>
      if Ascii.eqb c "." then Some (EmptyString, rest)
      else match split_point rest with
           | Some (whole, fraction) => Some (String c whole, fraction)
           | None => None
           end
  end.

Definition read_cents (text : string) : option (bool * Z) :=
  let '(negative, body) := strip_sign text in
  match split_point body with
  | Some (whole, fraction) =>
      match NilZero.uint_of_string whole, NilEmpty.uint_of_string fraction with
      | Some w, Some f =>
          if Nat.eqb (String.length fraction) 2 then
            Some (negative, Z.of_N (N.of_uint w) * 100 + Z.of_N (N.of_uint f))
          else None
      | _, _ => None
      end
  | None => None
  end.

(** [n] hundredths is the value [m * 2^e] to the nearest cent: exact when
    the value is a whole number, otherwise off by at most half a cent, and
    even where the value lies exactly between two cents. *)
Definition nearest_cent (m : positive) (e n : Z) : Prop :=
  if 0 <=? e then n = Z.pos m * 2 ^ e * 100
  else 2 * Z.abs (n * 2 ^ (- e) - Z.pos m * 100) <= 2 ^ (- e)
       /\ (2 * Z.abs (n * 2 ^ (- e) - Z.pos m * 100) = 2 ^ (- e) -> Z.even n = true).

(** What the text shown for a binary64 value has to be: for a finite value
    its sign and its nearest cent, with exactly two decimals; for a zero,
    an infinity and a NaN the texts Python prints. *)
Definition two_decimals_of (x : spec_float) (text : string) : Prop :=
  match x with
  | S754_finite s m e => exists n, read_cents text = Some (s, n) /\ nearest_cent m e n
  | S754_zero s => text = (if s then "-0.00" else "0.00")
  | S754_infinity s => text = (if s then "-inf" else "inf")
  | S754_nan => text = "nan"
  end.

(** The binary64 value of a number: of a float itself, of an [int] what
    [float(z)] gives. *)
Definition binary64_of (v : pyval) : option spec_float :=
  match v with
  | VFloat x => Some (Prim2SF x)
  | VInt z => match float_of_int z with Ok x => Some x | Raise _ => None end
  | _ => None
  end.

(** Sample inputs, used to exercise the theorems below. *)
Definition sample_date : datetime.date := datetime.mkDate 2024 3 11.
Definition sample_time : datetime.time := datetime.mkTime 14 30 0 0.

Definition manual (lat lon : float) : location_widgets :=
  mkLocationWidgets "Manual Coordinates" "" lat lon.

Definition sample_ui : widgets :=
  mkWidgets (manual 40.75 (-73.99)) (manual 40.76 (-73.97))
            sample_date sample_time 2 true.

Definition constant_model (out : result (list pyval)) : model :=
  mkModel true (fun _ => out).

Definition sample_world : world :=
  mkWorld (Ok (constant_model (Ok [VFloat 23.45]))) (fun _ _ => Ok None).

Definition failing_model : model :=
  constant_model
    (Raise (mkExn ValueError
              "X has 7 features, but LinearRegression is expecting 6 features as input.")).

Definition unset : location_widgets :=
  mkLocationWidgets "Select a location..." "" 40.7128 (-74.0060).

Definition typed (address : string) : location_widgets :=
  mkLocationWidgets "Custom Address" address 40.7128 (-74.0060).

Definition unset_ui : widgets :=
  mkWidgets unset (manual 40.76 (-73.97)) sample_date sample_time 1 true.

Definition unset_s1 : state :=
  snd (location_column sample_world Pickup (pickup unset_ui) loaded).

Definition unset_s2 : state :=
  snd (location_column sample_world Dropoff (dropoff unset_ui) unset_s1).

Definition timed_out : exn := mkExn (OtherException "GeocoderTimedOut") "Service timed out".

Definition offline_world : world :=
  mkWorld (Ok (constant_model (Ok [VFloat 23.45]))) (fun _ _ => Raise timed_out).

Definition file_missing : exn :=
  mkExn FileNotFoundError "[Errno 2] No such file or directory: 'model.pkr'".

Definition no_model_world : world :=
  mkWorld (Raise file_missing) (fun _ _ => Ok None).

Definition broken_world : world :=
  mkWorld (Raise file_missing) (fun _ _ => Raise timed_out).

Definition typed_pickup_ui : widgets :=
  mkWidgets (typed "1 Nowhere Lane") (manual 40.76 (-73.97))
            sample_date sample_time 1 true.

Definition interrupt : exn := mkExn KeyboardInterrupt "".

Definition interrupted_load_world : world :=
  mkWorld (Raise interrupt) (fun _ _ => Ok None).

Definition interrupted_geocoder_world : world :=
  mkWorld (Ok (constant_model (Ok [VFloat 23.45]))) (fun _ _ => Raise interrupt).

Definition interrupted_model : model := constant_model (Raise interrupt).

Definition falsy_world : world :=
  mkWorld (Ok (mkModel false (fun _ => Ok [VFloat 23.45]))) (fun _ _ => Ok None).

(** A geocoder that knows one address. *)
Definition times_square_world : world :=
  mkWorld (Ok (constant_model (Ok [VFloat 23.45])))
          (fun _ address =>
             if (address =? "Times Square, New York")%string
             then Ok (Some (40.7580, -73.9855)%float) else Ok None).

Definition typed_twice_ui : widgets :=
  mkWidgets (typed "Times Square, New York") (typed "Times Square, New York")
            sample_date sample_time 1 false.

Definition far_away_ui : widgets :=
  mkWidgets (manual 1000 (-500)) (manual nan infinity)
            sample_date sample_time 99 true.

Arguments format_f : simpl never.
Arguments fare_html : simpl never.
Arguments feature_row : simpl never.
Arguments datetime.weekday : simpl never.
Arguments getitem : simpl never.
Arguments unpack2 : simpl never.
Arguments resolve_location : simpl never.
Arguments get_coords : simpl never.
Arguments location_column : simpl never.
Arguments estimate_fare : simpl never.

(** Unfold the monad operations and the Streamlit calls, then compute. *)
Ltac run_step :=
  unfold try_except, bind, predict, lift, ret,
    st_error, st_warning, st_info, st_write, st_markdown, st_spinner,
    st_subheader, st_text_input, st_number_input, st_selectbox, emit;
  cbn.

(* ================================================================= *)
(** ** Basic facts about the monad and the observations *)

Lemma bind_Ok {A B : Type} (c : M A) (k : A -> M B) (s s' : state) (a : A) :
  c s = (Ok a, s') -> bind c k s = k a s'.
Proof. intros H. unfold bind. rewrite H. reflexivity. Qed.

Lemma bind_Raise {A B : Type} (c : M A) (k : A -> M B) (s s' : state) (e : exn) :
  c s = (Raise e, s') -> bind c k s = (Raise e, s').
Proof. intros H. unfold bind. rewrite H. reflexivity. Qed.

Lemma requested_app (l1 l2 : list event) :
  requested (l1 ++ l2)%list = (requested l1 ++ requested l2)%list.
Proof. unfold requested. apply flat_map_app. Qed.

Lemma requested_rev (l : list event) : requested (rev l) = rev (requested l).
Proof.
  induction l as [|ev l IH]; [reflexivity|].
  cbn [rev]. rewrite requested_app, IH.
  destruct ev; cbn; try (rewrite app_nil_r; reflexivity).
  reflexivity.
Qed.

Lemma dict_get_In (d : dict) (k : string) (v : pyval) :
  dict_get d k = Some v -> In (k, v) d.
Proof.
  induction d as [|[k' v'] d IH]; cbn; [discriminate|].
  destruct (String.eqb_spec k k') as [->|_].
  - intros [= ->]. now left.
  - intros H. right. now apply IH.
Qed.

Lemma keys_NoDup : NoDup (keys NYC_LOCATIONS).
Proof.
  cbn. repeat (constructor; [cbn; intuition discriminate|]). constructor.
Qed.

(* ================================================================= *)
(** ** Weekday and hour *)

Lemma weekday_range (dt : datetime.datetime) : 0 <= datetime.weekday dt < 7.
Proof. unfold datetime.weekday. apply Z.mod_pos_bound. lia. Qed.

(** A week later is the same weekday. *)
Lemma weekday_plus_7 (y mo d h mi sec us : Z) :
  datetime.weekday (datetime.mkDatetime y mo (d + 7) h mi sec us)
  = datetime.weekday (datetime.mkDatetime y mo d h mi sec us).
Proof.
  unfold datetime.weekday, datetime.toordinal, datetime._ymd2ord. cbn [datetime.year datetime.month datetime.day].
  replace (datetime._days_before_year y + datetime._days_before_month y mo + (d + 7) + 6)
    with (datetime._days_before_year y + datetime._days_before_month y mo + d + 6 + 1 * 7) by lia.
  apply Z.mod_add. lia.
Qed.

(** C9: the weekday of the combined date and time counts from Monday = 0
    to Sunday = 6 and depends on the date alone, whatever the time of day:
    2024-03-11 gives 0 and 2024-03-17 gives 6; the hour is the hour of the
    time input, unshifted. *)
Theorem weekday_monday_origin (t : datetime.time) :
  datetime.weekday (datetime.combine (datetime.mkDate 2024 3 11) t) = 0
  /\ datetime.weekday (datetime.combine (datetime.mkDate 2024 3 17) t) = 6
  /\ datetime.hour (datetime.combine (datetime.mkDate 2024 3 11) t) = datetime.time_hour t
  /\ datetime.hour (datetime.combine (datetime.mkDate 2024 3 17) t) = datetime.time_hour t.
Proof. repeat split; reflexivity. Qed.

(* ================================================================= *)
(** ** The estimate block *)

Lemma estimate_fare_complete (m : model)
  (pickup_lat pickup_lon dropoff_lat dropoff_lon : pyval)
  (ride_date : datetime.date) (ride_time : datetime.time) (passengers : Z) :
  is_None pickup_lat = false -> is_None dropoff_lat = false ->
  estimate_fare m pickup_lat pickup_lon dropoff_lat dropoff_lon
                ride_date ride_time passengers
  = let input_data :=
      feature_row pickup_lat pickup_lon dropoff_lat dropoff_lon
                  ride_date ride_time passengers in
    try_except
      (prediction <- predict m input_data ;;
       fare <- lift (first_item prediction) ;;
       shown <- lift (format_f 2 fare) ;;
       st_markdown (fare_html shown) true)
      (fun e =>
         st_error ("Prediction failed: " ++ exc_str e) ;;
         st_write (WStr "Debug info - Input Data:") ;;
         st_write (WFrame input_data)).
Proof.
  intros Hp Hd. unfold estimate_fare. rewrite Hp, Hd. reflexivity.
Qed.

(** With both latitudes present the predictor is called once, on the
    feature row, whatever happens next. *)
Lemma estimate_fare_requests (m : model)
  (pickup_lat pickup_lon dropoff_lat dropoff_lon : pyval)
  (ride_date : datetime.date) (ride_time : datetime.time) (passengers : Z)
  (s : state) :
  is_None pickup_lat = false -> is_None dropoff_lat = false ->
  requested (log (snd (estimate_fare m pickup_lat pickup_lon dropoff_lat dropoff_lon
                                     ride_date ride_time passengers s)))
  = feature_row pickup_lat pickup_lon dropoff_lat dropoff_lon
                ride_date ride_time passengers :: requested (log s).
Proof.
  intros Hp Hd. rewrite estimate_fare_complete by assumption.
  run_step.
  destruct (model_predict m _) as [[|v rest]|e]; cbn.
  - reflexivity.
  - destruct (format_f 2 v) as [shown|e]; cbn; [reflexivity|].
    destruct (isinstance_Exception (exc_type e)); reflexivity.
  - destruct (isinstance_Exception (exc_type e)); reflexivity.
Qed.

(** A successful prediction: the first item of the output, formatted, goes
    into the page. *)
Lemma estimate_fare_shows (m : model)
  (pickup_lat pickup_lon dropoff_lat dropoff_lon : pyval)
  (ride_date : datetime.date) (ride_time : datetime.time) (passengers : Z)
  (s : state) (fare : pyval) (rest : list pyval) (shown : string) :
  is_None pickup_lat = false -> is_None dropoff_lat = false ->
  model_predict m (feature_row pickup_lat pickup_lon dropoff_lat dropoff_lon
                               ride_date ride_time passengers)
  = Ok (fare :: rest) ->
  format_f 2 fare = Ok shown ->
  estimate_fare m pickup_lat pickup_lon dropoff_lat dropoff_lon
                ride_date ride_time passengers s
  = (Ok tt,
     mkState (StMarkdown (fare_html shown) true
              :: Predict (feature_row pickup_lat pickup_lon dropoff_lat dropoff_lon
                                      ride_date ride_time passengers)
              :: log s)
             (geocode_calls s)).
Proof.
  intros Hp Hd Hout Hfmt. rewrite estimate_fare_complete by assumption.
  run_step. rewrite Hout. cbn. rewrite Hfmt. reflexivity.
Qed.

(** An exception that is not an [Exception] passes through the [try]. *)
Lemma estimate_fare_interrupt (m : model)
  (pickup_lat pickup_lon dropoff_lat dropoff_lon : pyval)
  (ride_date : datetime.date) (ride_time : datetime.time) (passengers : Z)
  (s : state) (e : exn) :
  is_None pickup_lat = false -> is_None dropoff_lat = false ->
  model_predict m (feature_row pickup_lat pickup_lon dropoff_lat dropoff_lon
                               ride_date ride_time passengers)
  = Raise e ->
  isinstance_Exception (exc_type e) = false ->
  fst (estimate_fare m pickup_lat pickup_lon dropoff_lat dropoff_lon
                     ride_date ride_time passengers s) = Raise e.
Proof.
  intros Hp Hd Hout Hexc. rewrite estimate_fare_complete by assumption.
  run_step. rewrite Hout. cbn. rewrite Hexc. reflexivity.
Qed.

(** C3: when [predict] raises an exception on the feature row, the estimate
    block returns normally, having called [predict] once, shown
    "Prediction failed: ..." and then written out the very data frame it
    had passed to [predict]. *)
Theorem prediction_failure_is_reported (m : model)
  (pickup_lat pickup_lon dropoff_lat dropoff_lon : pyval)
  (ride_date : datetime.date) (ride_time : datetime.time) (passengers : Z)
  (s : state) (e : exn) :
  is_None pickup_lat = false -> is_None dropoff_lat = false ->
  model_predict m (feature_row pickup_lat pickup_lon dropoff_lat dropoff_lon
                               ride_date ride_time passengers)
  = Raise e ->
  isinstance_Exception (exc_type e) = true ->
  let attempted := feature_row pickup_lat pickup_lon dropoff_lat dropoff_lon
                               ride_date ride_time passengers in
  let '(r, s') := estimate_fare m pickup_lat pickup_lon dropoff_lat dropoff_lon
                                ride_date ride_time passengers s in
  r = Ok tt
  /\ log s' = StWrite (WFrame attempted)
              :: StWrite (WStr "Debug info - Input Data:")
              :: StError ("Prediction failed: " ++ exc_str e)
              :: Predict attempted
              :: log s
  /\ requested (log s') = attempted :: requested (log s).
Proof.
  intros Hp Hd Hout Hexc. rewrite estimate_fare_complete by assumption.
  run_step. rewrite Hout. cbn. rewrite Hexc. cbn. repeat split; reflexivity.
Qed.

(* ================================================================= *)
(** ** The location resolver *)

(** What [get_coords] does, by outcome of the geocoder call. *)
Lemma get_coords_found (w : world) (address : string) (s : state) (lat lon : float) :
  geocode w (geocode_calls s) address = Ok (Some (lat, lon)) ->
  get_coords w address s
  = (Ok (VFloat lat, VFloat lon),
     mkState (Geocode "uber_fare_app_v1" address :: log s) (S (geocode_calls s))).
Proof.
  intros H. unfold get_coords, nominatim_geocode. run_step. rewrite H. reflexivity.
Qed.

Lemma get_coords_no_match (w : world) (address : string) (s : state) :
  geocode w (geocode_calls s) address = Ok None ->
  get_coords w address s
  = (Ok (VNone, VNone),
     mkState (Geocode "uber_fare_app_v1" address :: log s) (S (geocode_calls s))).
Proof.
  intros H. unfold get_coords, nominatim_geocode. run_step. rewrite H. reflexivity.
Qed.

Lemma get_coords_error (w : world) (address : string) (s : state) (e : exn) :
  geocode w (geocode_calls s) address = Raise e ->
  isinstance_Exception (exc_type e) = true ->
  get_coords w address s
  = (Ok (VNone, VNone),
     mkState (StError ("Geocoding error: " ++ exc_str e)
              :: Geocode "uber_fare_app_v1" address :: log s)
             (S (geocode_calls s))).
Proof.
  intros H He. unfold get_coords, nominatim_geocode. run_step.
  rewrite H. cbn. rewrite He. reflexivity.
Qed.

Lemma get_coords_interrupt (w : world) (address : string) (s : state) (e : exn) :
  geocode w (geocode_calls s) address = Raise e ->
  isinstance_Exception (exc_type e) = false ->
  get_coords w address s
  = (Raise e,
     mkState (Geocode "uber_fare_app_v1" address :: log s) (S (geocode_calls s))).
Proof.
  intros H He. unfold get_coords, nominatim_geocode. run_step.
  rewrite H. cbn. rewrite He. reflexivity.
Qed.

Lemma get_coords_shape (w : world) (address : string) (s s' : state) (lat lon : pyval) :
  get_coords w address s = (Ok (lat, lon), s') -> both_or_neither lat lon.
Proof.
  destruct (geocode w (geocode_calls s) address) as [[[x y]|]|e] eqn:Hg.
  - rewrite (get_coords_found _ _ _ _ _ Hg). intros [= <- <- _]. right. eauto.
  - rewrite (get_coords_no_match _ _ _ Hg). intros [= <- <- _]. now left.
  - destruct (isinstance_Exception (exc_type e)) eqn:He.
    + rewrite (get_coords_error _ _ _ _ Hg He). intros [= <- <- _]. now left.
    + rewrite (get_coords_interrupt _ _ _ _ Hg He). discriminate.
Qed.

(** Every entry of the table that unpacks into two values is a pair of
    numbers. *)
Lemma entry_unpacks (k : string) (v lat lon : pyval) :
  In (k, v) NYC_LOCATIONS -> unpack2 v = Ok (lat, lon) ->
  exists x y, lat = VFloat x /\ lon = VFloat y.
Proof.
  intros Hin Hun. cbn in Hin.
  repeat (destruct Hin as [Hin|Hin];
          [ injection Hin as <- <-; cbv in Hun;
            first [ discriminate Hun | injection Hun as <- <-; eauto ] | ]).
  contradiction.
Qed.

(** The three branches of [resolve_location], by option. *)
Lemma resolve_location_custom (w : world) (sd : side) (ui : location_widgets) :
  resolve_location w sd ui "Custom Address"
  = (address <- st_text_input ("Enter " ++ Title sd ++ " Address")
                              (lower sd ++ "_custom") (custom_value ui) ;;
     if str_truthy address then
       st_spinner ("Finding " ++ lower sd ++ " location...") ;;
       '(lat, lon) <- get_coords w address ;;
       (if is_None lat then
          st_warning ("Could not find " ++ lower sd ++ " address. Please try again.")
        else ret tt) ;;
       ret (lat, lon)
     else ret (VNone, VNone)).
Proof. reflexivity. Qed.

Lemma resolve_location_manual (w : world) (sd : side) (ui : location_widgets) (s : state) :
  resolve_location w sd ui "Manual Coordinates" s
  = (Ok (VFloat (lat_input_value ui), VFloat (lon_input_value ui)),
     mkState (StNumberInput (Title sd ++ " Longitude") (VFloat (-74.0060))
                            (Some (lower sd ++ "_lon_input"))
              :: StNumberInput (Title sd ++ " Latitude") (VFloat 40.7128)
                               (Some (lower sd ++ "_lat_input"))
              :: log s)
             (geocode_calls s)).
Proof. reflexivity. Qed.

Lemma resolve_location_table (w : world) (sd : side) (ui : location_widgets)
  (option : string) (s : state) :
  (option =? "Custom Address")%string = false ->
  (option =? "Manual Coordinates")%string = false ->
  resolve_location w sd ui option s
  = if str_truthy option && negb (option =? "Select a location...")%string then
      match getitem NYC_LOCATIONS option with
      | Ok entry => (unpack2 entry, s)
      | Raise e => (Raise e, s)
      end
    else (Ok (VNone, VNone), s).
Proof.
  intros Hc Hm. unfold resolve_location. rewrite Hc, Hm.
  destruct (str_truthy option && _); [|reflexivity].
  run_step. now destruct (getitem NYC_LOCATIONS option).
Qed.

(** Whatever the mode, a resolved pair is nothing or two numbers. *)
Lemma resolve_location_shape (w : world) (sd : side) (ui : location_widgets)
  (option : string) (s s' : state) (lat lon : pyval) :
  resolve_location w sd ui option s = (Ok (lat, lon), s') ->
  both_or_neither lat lon.
Proof.
  destruct (String.eqb_spec option "Custom Address") as [->|Hc].
  - rewrite resolve_location_custom. run_step.
    destruct (str_truthy (custom_value ui)).
    + destruct (get_coords w _ _) as [[[la lo]|e] s1] eqn:Hg; cbn; [|discriminate].
      apply get_coords_shape in Hg.
      destruct (is_None la); cbn; intros [= <- <- _]; exact Hg.
    + intros [= <- <- _]. now left.
  - destruct (String.eqb_spec option "Manual Coordinates") as [->|Hm].
    + rewrite resolve_location_manual. intros [= <- <- _]. right. eauto.
    + rewrite resolve_location_table by now apply String.eqb_neq.
      destruct (str_truthy option && _).
      * unfold getitem. destruct (dict_get NYC_LOCATIONS option) as [v|] eqn:Hget;
          [|discriminate].
        intros [= Hun _]. right.
        exact (entry_unpacks _ _ _ _ (dict_get_In _ _ _ Hget) Hun).
      * intros [= <- <- _]. now left.
Qed.


(** C6: in custom-address mode with an empty address the resolver only
    shows the text field and returns [(None, None)]; the geocoder is not
    called, whatever the world. *)
Theorem empty_address_is_unresolved (w : world) (sd : side) (ui : location_widgets)
  (s : state) :
  custom_value ui = "" ->
  resolve_location w sd ui "Custom Address" s
  = (Ok (VNone, VNone),
     mkState (StTextInput ("Enter " ++ Title sd ++ " Address") (lower sd ++ "_custom")
              :: log s)
             (geocode_calls s))
  /\ geocoded (log (snd (resolve_location w sd ui "Custom Address" s)))
     = geocoded (log s).
Proof.
  intros Hempty. rewrite resolve_location_custom. run_step. rewrite Hempty.
  split; reflexivity.
Qed.

(** C7: in custom-address mode with a non-empty address, when the geocoder
    finds no match or raises an exception, the resolver returns normally
    with [(None, None)], its last act is the warning "Could not find ...
    address. Please try again.", and the geocoder has been called exactly
    once, with that address.  And whatever the geocoder does, a pair the
    resolver returns has a latitude of [None] exactly when its longitude is
    [None]. *)
Theorem geocode_failure_is_a_warning :
  (forall (w : world) (sd : side) (ui : location_widgets) (s : state),
      str_truthy (custom_value ui) = true ->
      (geocode w (geocode_calls s) (custom_value ui) = Ok None
       \/ exists e, geocode w (geocode_calls s) (custom_value ui) = Raise e
                    /\ isinstance_Exception (exc_type e) = true) ->
      let '(r, s') := resolve_location w sd ui "Custom Address" s in
      r = Ok (VNone, VNone)
      /\ hd_error (log s')
         = Some (StWarning ("Could not find " ++ lower sd ++ " address. Please try again."))
      /\ geocoded (log s') = custom_value ui :: geocoded (log s)
      /\ geocode_calls s' = S (geocode_calls s))
  /\ (forall (w : world) (sd : side) (ui : location_widgets) (s s' : state)
             (lat lon : pyval),
         resolve_location w sd ui "Custom Address" s = (Ok (lat, lon), s') ->
         (lat = VNone <-> lon = VNone)).
Proof.
  split.
  - intros w sd ui s Haddr Hout. rewrite resolve_location_custom. run_step.
    rewrite Haddr.
    destruct Hout as [Hnone|[e [Hraise He]]].
    + rewrite get_coords_no_match by exact Hnone. cbn. repeat split; reflexivity.
    + rewrite (get_coords_error _ _ _ e) by assumption. cbn.
      repeat split; reflexivity.
  - intros w sd ui s s' lat lon Hres.
    destruct (resolve_location_shape _ _ _ _ _ _ _ _ Hres)
      as [[-> ->]|[x [y [-> ->]]]]; split; congruence.
Qed.

(** C10: a pair returned by the resolver, in any mode, has a latitude of
    [None] exactly when its longitude is [None]; hence the test the
    estimate block makes on the two latitudes has the value of the test on
    all four components. *)
Theorem latitude_none_iff_longitude_none (w : world)
  (pickup_ui dropoff_ui : location_widgets) (pickup_option dropoff_option : string)
  (s1 s1' s2 s2' : state) (pickup_lat pickup_lon dropoff_lat dropoff_lon : pyval) :
  resolve_location w Pickup pickup_ui pickup_option s1
  = (Ok (pickup_lat, pickup_lon), s1') ->
  resolve_location w Dropoff dropoff_ui dropoff_option s2
  = (Ok (dropoff_lat, dropoff_lon), s2') ->
  (pickup_lat = VNone <-> pickup_lon = VNone)
  /\ (dropoff_lat = VNone <-> dropoff_lon = VNone)
  /\ is_None pickup_lat || is_None dropoff_lat
     = is_None pickup_lat || is_None pickup_lon
       || is_None dropoff_lat || is_None dropoff_lon.
Proof.
  intros Hp Hd.
  destruct (resolve_location_shape _ _ _ _ _ _ _ _ Hp) as [[-> ->]|[x [y [-> ->]]]];
    destruct (resolve_location_shape _ _ _ _ _ _ _ _ Hd) as [[-> ->]|[x' [y' [-> ->]]]];
    repeat split; intros; try congruence; reflexivity.
Qed.

(** The resolver never calls the predictor. *)
Lemma get_coords_quiet (w : world) (address : string) (s : state) :
  requested (log (snd (get_coords w address s))) = requested (log s).
Proof.
  destruct (geocode w (geocode_calls s) address) as [[[x y]|]|e] eqn:Hg.
  - now rewrite (get_coords_found _ _ _ _ _ Hg).
  - now rewrite (get_coords_no_match _ _ _ Hg).
  - destruct (isinstance_Exception (exc_type e)) eqn:He.
    + now rewrite (get_coords_error _ _ _ _ Hg He).
    + now rewrite (get_coords_interrupt _ _ _ _ Hg He).
Qed.

Lemma resolve_location_quiet (w : world) (sd : side) (ui : location_widgets)
  (option : string) (s : state) :
  requested (log (snd (resolve_location w sd ui option s))) = requested (log s).
Proof.
  destruct (String.eqb_spec option "Custom Address") as [->|Hc].
  - rewrite resolve_location_custom. run_step.
    destruct (str_truthy (custom_value ui)); [|reflexivity].
    match goal with |- context [get_coords w ?a ?s0] =>
      pose proof (get_coords_quiet w a s0) as Hq;
      destruct (get_coords w a s0) as [[[la lo]|e] s1]
    end; cbn in *; [|exact Hq].
    destruct (is_None la); cbn; exact Hq.
  - destruct (String.eqb_spec option "Manual Coordinates") as [->|Hm].
    + now rewrite resolve_location_manual.
    + rewrite resolve_location_table by now apply String.eqb_neq.
      destruct (str_truthy option && _); [|reflexivity].
      destruct (getitem NYC_LOCATIONS option); reflexivity.
Qed.

Lemma location_column_quiet (w : world) (sd : side) (ui : location_widgets) (s : state) :
  requested (log (snd (location_column w sd ui s))) = requested (log s).
Proof.
  unfold location_column. run_step.
  match goal with |- context [resolve_location w sd ui ?o ?s0] =>
    pose proof (resolve_location_quiet w sd ui o s0) as Hq;
    destruct (resolve_location w sd ui o s0) as [[[lat lon]|e] s1]
  end; cbn in *; [|exact Hq].
  destruct (negb (is_None lat) && negb (is_None lon)); cbn; [|exact Hq].
  destruct (format_f 6 lat); cbn; [|exact Hq].
  destruct (format_f 6 lon); cbn; exact Hq.
Qed.

Lemma location_column_shape (w : world) (sd : side) (ui : location_widgets)
  (s s' : state) (lat lon : pyval) :
  location_column w sd ui s = (Ok (lat, lon), s') -> both_or_neither lat lon.
Proof.
  unfold location_column. run_step.
  match goal with |- context [resolve_location w sd ui ?o ?s0] =>
    destruct (resolve_location w sd ui o s0) as [[[la lo]|e] s1] eqn:Hres
  end; cbn; [|discriminate].
  apply resolve_location_shape in Hres.
  destruct (negb (is_None la) && negb (is_None lo)); cbn.
  - destruct (format_f 6 la); cbn; [|discriminate].
    destruct (format_f 6 lo); cbn; [|discriminate].
    intros [= <- <- _]. exact Hres.
  - intros [= <- <- _]. exact Hres.
Qed.

Lemma location_column_manual (w : world) (sd : side) (lat lon : float) (s : state) :
  location_column w sd (manual lat lon) s
  = (Ok (VFloat lat, VFloat lon),
     mkState (StInfo ("**" ++ Title sd ++ " Coordinates:** "
                      ++ float_format_f 6 lat ++ ", " ++ float_format_f 6 lon)
              :: StNumberInput (Title sd ++ " Longitude") (VFloat (-74.0060))
                               (Some (lower sd ++ "_lon_input"))
              :: StNumberInput (Title sd ++ " Latitude") (VFloat 40.7128)
                               (Some (lower sd ++ "_lat_input"))
              :: log (column_opened sd s))
             (geocode_calls s)).
Proof. reflexivity. Qed.

(* ================================================================= *)
(** ** The whole run *)

Lemma run_trace (w : world) (ui : widgets) :
  snd (run w ui) = trace (snd (main w ui initial)).
Proof. unfold run. now destruct (main w ui initial). Qed.

Lemma main_loaded (w : world) (ui : widgets) (m : model) :
  pickle_load w = Ok m -> model_truthy m = true ->
  main w ui initial = page w ui m loaded.
Proof.
  intros Hload Htruthy. unfold main, load_model, open_and_unpickle, st_title.
  run_step. rewrite Hload. cbn. rewrite Htruthy. reflexivity.
Qed.

Lemma page_clicked (w : world) (ui : widgets) (m : model) (s s1 s2 : state)
  (pickup_lat pickup_lon dropoff_lat dropoff_lon : pyval) :
  location_column w Pickup (pickup ui) s = (Ok (pickup_lat, pickup_lon), s1) ->
  location_column w Dropoff (dropoff ui) s1 = (Ok (dropoff_lat, dropoff_lon), s2) ->
  estimate_clicked ui = true ->
  page w ui m s
  = estimate_fare m pickup_lat pickup_lon dropoff_lat dropoff_lon
                  (date_value ui) (time_value ui) (passengers_value ui)
                  (inputs_shown s2).
Proof.
  intros Hp Hd Hclick. unfold page.
  rewrite (bind_Ok _ _ _ _ _ Hp). rewrite (bind_Ok _ _ _ _ _ Hd).
  unfold st_date_input, st_time_input, st_button. run_step.
  rewrite Hclick. reflexivity.
Qed.

Lemma estimate_fare_incomplete (m : model)
  (pickup_lat pickup_lon dropoff_lat dropoff_lon : pyval)
  (ride_date : datetime.date) (ride_time : datetime.time) (passengers : Z)
  (s : state) :
  is_None pickup_lat || is_None dropoff_lat = true ->
  estimate_fare m pickup_lat pickup_lon dropoff_lat dropoff_lon
                ride_date ride_time passengers s
  = (Ok tt,
     mkState (StError "Please select valid Pickup and Dropoff locations." :: log s)
             (geocode_calls s)).
Proof. intros H. unfold estimate_fare. rewrite H. reflexivity. Qed.

(** C8: when opening or unpickling the model file raises an exception,
    the run consists of the title, the introduction, the attempt to read
    the file and one error message, and then [main] returns: no widget is
    put on the page and the predictor is never called. *)
Theorem load_failure_blocks_the_page (w : world) (ui : widgets) (e : exn) :
  pickle_load w = Raise e ->
  isinstance_Exception (exc_type e) = true ->
  run w ui
  = (Ok tt,
     [ StTitle "🚖 Uber Fare Predictor";
       StMarkdown "Predict your Uber fare in NYC based on location and time." false;
       OpenAndUnpickle "model.pkr";
       StError (if isinstance_FileNotFoundError (exc_type e)
                then "Model file 'model.pkr' not found. Please ensure it is in the same directory."
                else "Error loading model: " ++ exc_str e) ])
  /\ requested (snd (run w ui)) = []
  /\ geocoded (snd (run w ui)) = [].
Proof.
  intros Hload He.
  assert (Hrun : run w ui
    = (Ok tt,
       [ StTitle "🚖 Uber Fare Predictor";
         StMarkdown "Predict your Uber fare in NYC based on location and time." false;
         OpenAndUnpickle "model.pkr";
         StError (if isinstance_FileNotFoundError (exc_type e)
                  then "Model file 'model.pkr' not found. Please ensure it is in the same directory."
                  else "Error loading model: " ++ exc_str e) ])).
  { unfold run, main, load_model, open_and_unpickle, st_title. run_step.
    rewrite Hload. cbn. rewrite He.
    destruct (isinstance_FileNotFoundError (exc_type e)); reflexivity. }
  rewrite Hrun. repeat split; reflexivity.
Qed.

(** C2: in a run with the model loaded and "Estimate Fare" clicked, if
    either column has left a component of its pair at [None], the run ends
    normally with the message "Please select valid Pickup and Dropoff
    locations." as its last event, and the predictor is not called anywhere
    in the run. *)
Theorem incomplete_input_is_refused (w : world) (ui : widgets) (m : model)
  (s1 s2 : state) (pickup_lat pickup_lon dropoff_lat dropoff_lon : pyval) :
  pickle_load w = Ok m -> model_truthy m = true ->
  estimate_clicked ui = true ->
  location_column w Pickup (pickup ui) loaded = (Ok (pickup_lat, pickup_lon), s1) ->
  location_column w Dropoff (dropoff ui) s1 = (Ok (dropoff_lat, dropoff_lon), s2) ->
  pickup_lat = VNone \/ pickup_lon = VNone
  \/ dropoff_lat = VNone \/ dropoff_lon = VNone ->
  run w ui
  = (Ok tt,
     (trace (inputs_shown s2)
      ++ [StError "Please select valid Pickup and Dropoff locations."])%list)
  /\ requested (snd (run w ui)) = [].
Proof.
  intros Hload Htruthy Hclick Hp Hd Hnone.
  assert (Hcheck : is_None pickup_lat || is_None dropoff_lat = true).
  { destruct (location_column_shape _ _ _ _ _ _ _ Hp) as [[-> ->]|[x [y [-> ->]]]];
      [reflexivity|].
    destruct (location_column_shape _ _ _ _ _ _ _ Hd) as [[-> ->]|[x' [y' [-> ->]]]];
      [reflexivity|].
    destruct Hnone as [H|[H|[H|H]]]; discriminate H. }
  assert (Hmain : main w ui initial
    = (Ok tt,
       mkState (StError "Please select valid Pickup and Dropoff locations."
                :: log (inputs_shown s2))
               (geocode_calls (inputs_shown s2)))).
  { rewrite (main_loaded _ _ _ Hload Htruthy).
    rewrite (page_clicked _ _ _ _ _ _ _ _ _ _ Hp Hd Hclick).
    now apply estimate_fare_incomplete. }
  split.
  - unfold run. rewrite Hmain. reflexivity.
  - rewrite run_trace, Hmain. unfold trace. rewrite requested_rev.
    cbn [snd log inputs_shown requested flat_map app].
    pose proof (location_column_quiet w Dropoff (dropoff ui) s1) as Hq2.
    pose proof (location_column_quiet w Pickup (pickup ui) loaded) as Hq1.
    rewrite Hd in Hq2. rewrite Hp in Hq1. cbn [snd] in Hq1, Hq2.
    fold (requested (log s2)). rewrite Hq2, Hq1. reflexivity.
Qed.

(** C1: with the model loaded, manual coordinates (40.75, -73.99) for the
    pickup and (40.76, -73.97) for the dropoff, 2 passengers, the date
    2024-03-11, the time 14:30 and the button clicked, the predictor is
    called exactly once, on the data frame with the columns
    pickup_longitude = -73.99, pickup_latitude = 40.75,
    dropoff_longitude = -73.97, dropoff_latitude = 40.76,
    passenger_count = 2, hour = 14, day_of_week = 0, in that order. *)
Theorem feature_row_order (w : world) (m : model) :
  pickle_load w = Ok m -> model_truthy m = true ->
  requested (snd (run w sample_ui))
  = [ [ ("pickup_longitude", [VFloat (-73.99)]);
        ("pickup_latitude", [VFloat 40.75]);
        ("dropoff_longitude", [VFloat (-73.97)]);
        ("dropoff_latitude", [VFloat 40.76]);
        ("passenger_count", [VInt 2]);
        ("hour", [VInt 14]);
        ("day_of_week", [VInt 0]) ] ].
Proof.
  intros Hload Htruthy.
  rewrite run_trace, (main_loaded _ _ _ Hload Htruthy).
  rewrite (page_clicked w sample_ui m loaded _ _ _ _ _ _
             (location_column_manual _ _ _ _ _)
             (location_column_manual _ _ _ _ _) eq_refl).
  unfold trace. rewrite requested_rev.
  rewrite estimate_fare_requests by reflexivity.
  reflexivity.
Qed.

(* ================================================================= *)
(** ** Two decimal places *)

(** The rounding is to a nearest integer: the error is at most one half. *)
Lemma round_half_even_nearest (num den : Z) :
  0 < den -> 2 * Z.abs (round_half_even num den * den - num) <= den.
Proof.
  intros Hden. unfold round_half_even.
  pose proof (Z.div_mod num den ltac:(lia)) as Hdm.
  pose proof (Z.mod_pos_bound num den Hden) as Hr.
  set (q := num / den) in *. set (r := num mod den) in *.
  destruct (Z.compare_spec (2 * r) den) as [Heq|Hlt|Hgt].
  - destruct (Z.even q); nia.
  - nia.
  - nia.
Qed.

Lemma round_half_even_nonneg (num den : Z) :
  0 <= num -> 0 < den -> 0 <= round_half_even num den.
Proof.
  intros Hnum Hden. unfold round_half_even.
  pose proof (Z.div_pos num den Hnum Hden) as Hq.
  destruct (2 * (num mod den) ?= den); [destruct (Z.even _)| |]; lia.
Qed.

Lemma scaled_nonneg (prec : nat) (m : positive) (e : Z) : 0 <= scaled prec m e.
Proof.
  unfold scaled.
  assert (0 <= Z.pos m * 10 ^ Z.of_nat prec).
  { apply Z.mul_nonneg_nonneg; [lia|]. apply Z.pow_nonneg. lia. }
  destruct (0 <=? e) eqn:He.
  - apply Z.mul_nonneg_nonneg; [assumption|]. apply Z.pow_nonneg. lia.
  - apply round_half_even_nonneg; [assumption|].
    apply Z.pow_pos_nonneg; lia.
Qed.

Lemma round_half_even_tie (num den : Z) :
  0 < den ->
  2 * Z.abs (round_half_even num den * den - num) = den ->
  Z.even (round_half_even num den) = true.
Proof.
  intros Hden. unfold round_half_even.
  pose proof (Z.div_mod num den ltac:(lia)) as Hdm.
  pose proof (Z.mod_pos_bound num den Hden) as Hr.
  set (q := num / den) in *. set (r := num mod den) in *.
  destruct (Z.compare_spec (2 * r) den) as [Heq|Hlt|Hgt].
  - intros _. destruct (Z.even q) eqn:Hq; [exact Hq|].
    rewrite Z.even_add, Hq. reflexivity.
  - intros H. exfalso. nia.
  - intros H. exfalso. nia.
Qed.

Lemma scaled_nearest_cent (m : positive) (e : Z) : nearest_cent m e (scaled 2 m e).
Proof.
  unfold nearest_cent, scaled. change (10 ^ Z.of_nat 2) with 100.
  destruct (Z.leb_spec 0 e) as [He|He].
  - ring.
  - assert (Hden : 0 < 2 ^ (- e)) by (apply Z.pow_pos_nonneg; lia).
    split.
    + now apply round_half_even_nearest.
    + now apply round_half_even_tie.
Qed.

(** Reading back what [fixed_point 2] writes. *)
Lemma strip_sign_digits (d : Decimal.uint) (tail : string) :
  strip_sign (NilZero.string_of_uint d ++ tail)
  = (false, NilZero.string_of_uint d ++ tail).
Proof. destruct d; reflexivity. Qed.

Lemma split_point_digits_empty (d : Decimal.uint) (rest : string) :
  split_point (NilEmpty.string_of_uint d ++ String "." rest)
  = Some (NilEmpty.string_of_uint d, rest).
Proof. induction d; cbn; rewrite ?IHd; reflexivity. Qed.

Lemma split_point_digits (d : Decimal.uint) (rest : string) :
  split_point (NilZero.string_of_uint d ++ String "." rest)
  = Some (NilZero.string_of_uint d, rest).
Proof.
  destruct d; try reflexivity;
    exact (split_point_digits_empty _ rest).
Qed.

Lemma read_whole (a : Z) :
  0 <= a ->
  exists w, NilZero.uint_of_string (digits a) = Some w /\ Z.of_N (N.of_uint w) = a.
Proof.
  intros Ha. unfold digits. exists (N.to_uint (Z.to_N a)). split.
  - apply NilZero.usu. destruct (Z.to_N a) as [|p]; [discriminate|].
    apply DecimalPos.Unsigned.to_uint_nonnil.
  - rewrite DecimalN.Unsigned.of_to. lia.
Qed.

Lemma read_fraction (r : Z) :
  0 <= r < 100 ->
  exists f,
    NilEmpty.uint_of_string (zeros (2 - String.length (digits r)) ++ digits r) = Some f
    /\ Z.of_N (N.of_uint f) = r
    /\ String.length (zeros (2 - String.length (digits r)) ++ digits r) = 2%nat.
Proof.
  intros Hr. rewrite <- (Z2Nat.id r) by lia.
  assert (Hk : (Z.to_nat r < 100)%nat) by lia.
  generalize dependent (Z.to_nat r). intros k Hk.
  do 100 (destruct k as [|k]; [eexists; repeat split; reflexivity|]).
  lia.
Qed.

Lemma read_cents_fixed_point (s : bool) (n : Z) :
  0 <= n -> read_cents (sign_str s ++ fixed_point 2 n) = Some (s, n).
Proof.
  intros Hn. unfold fixed_point. change (10 ^ Z.of_nat 2) with 100.
  assert (Ha : 0 <= n / 100) by (apply Z.div_pos; lia).
  assert (Hr : 0 <= n mod 100 < 100) by (apply Z.mod_pos_bound; lia).
  destruct (read_whole _ Ha) as [w [Hw Hwv]].
  destruct (read_fraction _ Hr) as [f [Hf [Hfv Hlen]]].
  pose proof (Z.div_mod n 100 ltac:(lia)) as Hdm.
  set (fraction := zeros (2 - String.length (digits (n mod 100))) ++ digits (n mod 100)) in *.
  change (digits (n / 100) ++ "." ++ fraction)
    with (digits (n / 100) ++ String "." fraction).
  unfold read_cents.
  assert (Hstrip : strip_sign (sign_str s ++ digits (n / 100) ++ String "." fraction)
                   = (s, digits (n / 100) ++ String "." fraction)).
  { destruct s; [reflexivity|]. exact (strip_sign_digits _ _). }
  rewrite Hstrip. unfold digits at 1. rewrite split_point_digits.
  fold (digits (n / 100)). rewrite Hw, Hf, Hlen. cbn [Nat.eqb].
  f_equal. f_equal. lia.
Qed.

Lemma sf_format_two_decimals (x : spec_float) : two_decimals_of x (sf_format_f 2 x).
Proof.
  destruct x as [s|s| |s m e]; cbn [two_decimals_of sf_format_f].
  - now destruct s.
  - now destruct s.
  - reflexivity.
  - exists (scaled 2 m e). split.
    + apply read_cents_fixed_point, scaled_nonneg.
    + apply scaled_nearest_cent.
Qed.

Lemma format_of_binary64 (fare : pyval) (x : spec_float) :
  binary64_of fare = Some x -> format_f 2 fare = Ok (sf_format_f 2 x).
Proof.
  unfold binary64_of, format_f, float_format_f.
  destruct fare as [|z|y|t|items]; try discriminate.
  - destruct (float_of_int z); [intros [= ->]; reflexivity|discriminate].
  - intros [= <-]. reflexivity.
Qed.

(** X16: a float formatted with ".2f" reads back, by a reader written
    apart from the formatter, as its own sign and its value to the nearest
    cent (ties to even), with exactly two decimals: a negative value keeps
    its minus sign and nothing is clamped.  A zero is "0.00" or "-0.00",
    an infinity "inf" or "-inf", a NaN "nan". *)
Theorem two_decimal_text_reads_back (x : float) :
  match Prim2SF x with
  | S754_finite s m e =>
      exists n, read_cents (float_format_f 2 x) = Some (s, n) /\ nearest_cent m e n
  | S754_zero s => float_format_f 2 x = (if s then "-0.00" else "0.00")
  | S754_infinity s => float_format_f 2 x = (if s then "-inf" else "inf")
  | S754_nan => float_format_f 2 x = "nan"
  end.
Proof.
  unfold float_format_f.
  exact (sf_format_two_decimals (Prim2SF x)).
Qed.

(** C4, as amended: when [predict] returns normally and the first item of
    its output is a number, the estimate block puts on the page the fare
    heading with, after the dollar sign, that number formatted with ".2f".
    For a finite value the text has exactly two decimals and reads back as
    the value's own sign and its nearest cent: nothing is clamped.  An
    output of 23.45 is shown as "23.45", 7 as "7.00" and -1.2 as "-1.20".
    A NaN is shown as "nan" and an infinity as "inf" or "-inf", without
    decimals. *)
Theorem fare_is_shown_as_formatted (m : model)
  (pickup_lat pickup_lon dropoff_lat dropoff_lon : pyval)
  (ride_date : datetime.date) (ride_time : datetime.time) (passengers : Z)
  (s : state) (fare : pyval) (rest : list pyval) (x : spec_float) :
  is_None pickup_lat = false -> is_None dropoff_lat = false ->
  model_predict m (feature_row pickup_lat pickup_lon dropoff_lat dropoff_lon
                               ride_date ride_time passengers)
  = Ok (fare :: rest) ->
  binary64_of fare = Some x ->
  exists text,
    estimate_fare m pickup_lat pickup_lon dropoff_lat dropoff_lon
                  ride_date ride_time passengers s
    = (Ok tt,
       mkState
         (StMarkdown
            (String "010"
          ("                <div style="
           ++ String "034"
                ("text-align: center; padding: 5px; background-color: transparent; border-radius: 10px; margin-top: 5px;"
                 ++ String "034"
                      (">"
                       ++ String "010"
                            ("                    <h3>Estimated Fare</h3>"
                             ++ String "010"
                                  ("                    <h1 style="
                                   ++ String "034"
                                        ("color: #00CC00;"
                                         ++ String "034"
                                              (">$" ++ text ++ "</h1>"
                                               ++ String "010"
                                                    ("                </div>"
                                                     ++ String "010"
                                                          "                ")))))))))
            true
          :: Predict (feature_row pickup_lat pickup_lon dropoff_lat dropoff_lon
                                  ride_date ride_time passengers)
          :: log s)
         (geocode_calls s))
    /\ two_decimals_of x text
    /\ (fare = VFloat 23.45 -> text = "23.45")
    /\ (fare = VInt 7 -> text = "7.00")
    /\ (fare = VFloat 7 -> text = "7.00")
    /\ (fare = VFloat (-1.2) -> text = "-1.20").
Proof.
  intros Hp Hd Hout Hx. exists (sf_format_f 2 x).
  pose proof (format_of_binary64 _ _ Hx) as Hfmt.
  split; [|split].
  - exact (estimate_fare_shows _ _ _ _ _ _ _ _ _ fare rest _ Hp Hd Hout Hfmt).
  - apply sf_format_two_decimals.
  - repeat split; intros ->; injection Hx as <-; reflexivity.
Qed.

(** C4, as stated, fails for an output that is not finite: a predictor
    returning NaN gives a successful prediction shown as "$nan", a text
    with no decimal point and no decimals. *)
Lemma nan_fare_has_no_decimals :
  estimate_fare (constant_model (Ok [VFloat nan]))
                (VFloat 40.75) (VFloat (-73.99)) (VFloat 40.76) (VFloat (-73.97))
                sample_date sample_time 2 initial
  = (Ok tt,
     mkState
       [ StMarkdown
           (String "010"
          ("                <div style="
           ++ String "034"
                ("text-align: center; padding: 5px; background-color: transparent; border-radius: 10px; margin-top: 5px;"
                 ++ String "034"
                      (">"
                       ++ String "010"
                            ("                    <h3>Estimated Fare</h3>"
                             ++ String "010"
                                  ("                    <h1 style="
                                   ++ String "034"
                                        ("color: #00CC00;"
                                         ++ String "034"
                                              (">$" ++ "nan" ++ "</h1>"
                                               ++ String "010"
                                                    ("                </div>"
                                                     ++ String "010"
                                                          "                ")))))))))
           true;
         Predict (feature_row (VFloat 40.75) (VFloat (-73.99))
                              (VFloat 40.76) (VFloat (-73.97))
                              sample_date sample_time 2) ]
       0)
  /\ split_point "nan" = None
  /\ read_cents "nan" = None.
Proof. repeat split; reflexivity. Qed.

(* ================================================================= *)
(** ** No failure escapes

    With the selector offering the keys of the table and the outside calls
    raising ordinary errors only, every block of the page returns. *)

Lemma format_f_raises (prec : nat) (v : pyval) : raises_only_errors (format_f prec v).
Proof.
  intros e. unfold format_f, float_of_int. destruct v as [|z|x|t|items]; cbn.
  - intros [= <-]. reflexivity.
  - destruct (binary_normalize 53 1024 z 0 false); intros [= <-]; reflexivity.
  - discriminate.
  - intros [= <-]. reflexivity.
  - intros [= <-]. reflexivity.
Qed.

Lemma resolve_location_returns (w : world) (sd : side) (ui : location_widgets)
  (option : string) (s : state) :
  In option (keys NYC_LOCATIONS) ->
  raises_only_errors (geocode w (geocode_calls s) (custom_value ui)) ->
  exists p s', resolve_location w sd ui option s = (Ok p, s').
Proof.
  intros Hin Hgeo. cbn in Hin.
  repeat (destruct Hin as [<-|Hin]; [try (do 2 eexists; reflexivity)|]);
    [|contradiction].
  rewrite resolve_location_custom. run_step.
  destruct (str_truthy (custom_value ui)); [|do 2 eexists; reflexivity].
  match goal with |- context [get_coords w ?a ?s0] =>
    destruct (geocode w (geocode_calls s0) a) as [[[x y]|]|e] eqn:Hg
  end.
  - rewrite (get_coords_found _ _ _ _ _ Hg). do 2 eexists; reflexivity.
  - rewrite (get_coords_no_match _ _ _ Hg). do 2 eexists; reflexivity.
  - rewrite (get_coords_error _ _ _ _ Hg (Hgeo e Hg)). do 2 eexists; reflexivity.
Qed.

Lemma location_column_returns (w : world) (sd : side) (ui : location_widgets)
  (s : state) :
  In (select_value ui) (keys NYC_LOCATIONS) ->
  raises_only_errors (geocode w (geocode_calls s) (custom_value ui)) ->
  exists p s', location_column w sd ui s = (Ok p, s').
Proof.
  intros Hin Hgeo.
  destruct (resolve_location_returns w sd ui (select_value ui) (column_opened sd s)
              Hin Hgeo) as [[lat lon] [s1 Hres]].
  unfold location_column. run_step.
  change (mkState _ (geocode_calls s)) with (column_opened sd s).
  rewrite Hres. cbn.
  destruct (resolve_location_shape _ _ _ _ _ _ _ _ Hres) as [[-> ->]|[x [y [-> ->]]]];
    do 2 eexists; reflexivity.
Qed.

Lemma estimate_fare_returns (m : model)
  (pickup_lat pickup_lon dropoff_lat dropoff_lon : pyval)
  (ride_date : datetime.date) (ride_time : datetime.time) (passengers : Z)
  (s : state) :
  (forall input_data, raises_only_errors (model_predict m input_data)) ->
  fst (estimate_fare m pickup_lat pickup_lon dropoff_lat dropoff_lon
                     ride_date ride_time passengers s) = Ok tt.
Proof.
  intros Hpred.
  destruct (is_None pickup_lat || is_None dropoff_lat) eqn:Hcheck.
  - now rewrite estimate_fare_incomplete.
  - apply orb_false_elim in Hcheck as [Hp Hd].
    rewrite estimate_fare_complete by assumption. run_step.
    destruct (model_predict m _) as [[|v rest]|e] eqn:Hout; cbn.
    + reflexivity.
    + destruct (format_f 2 v) as [shown|e] eqn:Hfmt; cbn; [reflexivity|].
      now rewrite (format_f_raises _ _ _ Hfmt).
    + now rewrite (Hpred _ _ Hout).
Qed.

(** X1: when opening the model file, the geocoder and [predict] raise
    ordinary errors only, and both selectors hold one of their options,
    [load_model] returns, and the page after the model check (lines 68-225)
    returns normally: each failure is caught where it happens. *)
Theorem failures_are_caught (w : world) (ui : widgets) (m : model) (s : state) :
  raises_only_errors (pickle_load w) ->
  (forall n address, raises_only_errors (geocode w n address)) ->
  (forall input_data, raises_only_errors (model_predict m input_data)) ->
  In (select_value (pickup ui)) (keys NYC_LOCATIONS) ->
  In (select_value (dropoff ui)) (keys NYC_LOCATIONS) ->
  (exists loaded_model s', load_model w s = (Ok loaded_model, s'))
  /\ fst (page w ui m s) = Ok tt.
Proof.
  intros Hload Hgeo Hpred Hpick Hdrop. split.
  - unfold load_model, open_and_unpickle. run_step.
    destruct (pickle_load w) as [m0|e] eqn:Hl; cbn.
    + do 2 eexists. reflexivity.
    + rewrite (Hload e eq_refl).
      destruct (isinstance_FileNotFoundError (exc_type e)); do 2 eexists; reflexivity.
  - destruct (location_column_returns w Pickup (pickup ui) s Hpick (Hgeo _ _))
      as [[plat plon] [s1 Hp]].
    destruct (location_column_returns w Dropoff (dropoff ui) s1 Hdrop (Hgeo _ _))
      as [[dlat dlon] [s2 Hd]].
    destruct (estimate_clicked ui) eqn:Hclick.
    + rewrite (page_clicked _ _ _ _ _ _ _ _ _ _ Hp Hd Hclick).
      now apply estimate_fare_returns.
    + unfold page. rewrite (bind_Ok _ _ _ _ _ Hp), (bind_Ok _ _ _ _ _ Hd).
      unfold st_date_input, st_time_input, st_button. run_step.
      now rewrite Hclick.
Qed.

(* ================================================================= *)
(** ** The theorems at sample inputs *)

Lemma feature_row_order_witness :
  requested (snd (run sample_world sample_ui))
  = [ [ ("pickup_longitude", [VFloat (-73.99)]);
        ("pickup_latitude", [VFloat 40.75]);
        ("dropoff_longitude", [VFloat (-73.97)]);
        ("dropoff_latitude", [VFloat 40.76]);
        ("passenger_count", [VInt 2]);
        ("hour", [VInt 14]);
        ("day_of_week", [VInt 0]) ] ].
Proof.
  apply (feature_row_order sample_world (constant_model (Ok [VFloat 23.45])));
    reflexivity.
Defined.

Lemma incomplete_input_is_refused_witness :
  run sample_world unset_ui
  = (Ok tt,
     (trace (inputs_shown unset_s2)
      ++ [StError "Please select valid Pickup and Dropoff locations."])%list)
  /\ requested (snd (run sample_world unset_ui)) = [].
Proof.
  apply (incomplete_input_is_refused sample_world unset_ui
           (constant_model (Ok [VFloat 23.45])) unset_s1 unset_s2
           VNone VNone (VFloat 40.76) (VFloat (-73.97)));
    try reflexivity.
  left. reflexivity.
Defined.

Lemma prediction_failure_is_reported_witness :
  let attempted :=
    feature_row (VFloat 40.75) (VFloat (-73.99)) (VFloat 40.76) (VFloat (-73.97))
                sample_date sample_time 2 in
  let '(r, s') :=
    estimate_fare failing_model
                  (VFloat 40.75) (VFloat (-73.99)) (VFloat 40.76) (VFloat (-73.97))
                  sample_date sample_time 2 initial in
  r = Ok tt
  /\ log s' = StWrite (WFrame attempted)
              :: StWrite (WStr "Debug info - Input Data:")
              :: StError ("Prediction failed: "
                          ++ "X has 7 features, but LinearRegression is expecting 6 features as input.")
              :: Predict attempted
              :: log initial
  /\ requested (log s') = attempted :: requested (log initial).
Proof.
  apply (prediction_failure_is_reported failing_model
           (VFloat 40.75) (VFloat (-73.99)) (VFloat 40.76) (VFloat (-73.97))
           sample_date sample_time 2 initial
           (mkExn ValueError
              "X has 7 features, but LinearRegression is expecting 6 features as input."));
    reflexivity.
Defined.

Lemma fare_is_shown_as_formatted_witness :
  exists text,
    estimate_fare (constant_model (Ok [VFloat (-1.2)]))
                  (VFloat 40.75) (VFloat (-73.99)) (VFloat 40.76) (VFloat (-73.97))
                  sample_date sample_time 2 initial
    = (Ok tt,
       mkState
         (StMarkdown
            (String "010"
          ("                <div style="
           ++ String "034"
                ("text-align: center; padding: 5px; background-color: transparent; border-radius: 10px; margin-top: 5px;"
                 ++ String "034"
                      (">"
                       ++ String "010"
                            ("                    <h3>Estimated Fare</h3>"
                             ++ String "010"
                                  ("                    <h1 style="
                                   ++ String "034"
                                        ("color: #00CC00;"
                                         ++ String "034"
                                              (">$" ++ text ++ "</h1>"
                                               ++ String "010"
                                                    ("                </div>"
                                                     ++ String "010"
                                                          "                ")))))))))
            true
          :: Predict (feature_row (VFloat 40.75) (VFloat (-73.99))
                                  (VFloat 40.76) (VFloat (-73.97))
                                  sample_date sample_time 2)
          :: log initial)
         (geocode_calls initial))
    /\ two_decimals_of (S754_finite true 5404319552844595 (-52)) text
    /\ (VFloat (-1.2) = VFloat 23.45 -> text = "23.45")
    /\ (VFloat (-1.2) = VInt 7 -> text = "7.00")
    /\ (VFloat (-1.2) = VFloat 7 -> text = "7.00")
    /\ (VFloat (-1.2) = VFloat (-1.2) -> text = "-1.20").
Proof.
  apply (fare_is_shown_as_formatted (constant_model (Ok [VFloat (-1.2)]))
           (VFloat 40.75) (VFloat (-73.99)) (VFloat 40.76) (VFloat (-73.97))
           sample_date sample_time 2 initial (VFloat (-1.2)) []
           (S754_finite true 5404319552844595 (-52)));
    reflexivity.
Defined.


Lemma empty_address_is_unresolved_witness :
  resolve_location offline_world Pickup (typed "") "Custom Address" initial
  = (Ok (VNone, VNone),
     mkState (StTextInput ("Enter " ++ Title Pickup ++ " Address")
                          (lower Pickup ++ "_custom")
              :: log initial)
             (geocode_calls initial))
  /\ geocoded (log (snd (resolve_location offline_world Pickup (typed "")
                                          "Custom Address" initial)))
     = geocoded (log initial).
Proof.
  apply (empty_address_is_unresolved offline_world Pickup (typed "") initial).
  reflexivity.
Defined.

Lemma geocode_failure_is_a_warning_witness :
  let '(r, s') :=
    resolve_location offline_world Dropoff (typed "1 Nowhere Lane")
                     "Custom Address" initial in
  r = Ok (VNone, VNone)
  /\ hd_error (log s')
     = Some (StWarning ("Could not find " ++ lower Dropoff
                        ++ " address. Please try again."))
  /\ geocoded (log s') = custom_value (typed "1 Nowhere Lane") :: geocoded (log initial)
  /\ geocode_calls s' = S (geocode_calls initial).
Proof.
  apply (proj1 geocode_failure_is_a_warning offline_world Dropoff
           (typed "1 Nowhere Lane") initial).
  - reflexivity.
  - right. exists timed_out. split; reflexivity.
Defined.

Lemma load_failure_blocks_the_page_witness :
  run no_model_world sample_ui
  = (Ok tt,
     [ StTitle "🚖 Uber Fare Predictor";
       StMarkdown "Predict your Uber fare in NYC based on location and time." false;
       OpenAndUnpickle "model.pkr";
       StError (if isinstance_FileNotFoundError (exc_type file_missing)
                then "Model file 'model.pkr' not found. Please ensure it is in the same directory."
                else "Error loading model: " ++ exc_str file_missing) ])
  /\ requested (snd (run no_model_world sample_ui)) = []
  /\ geocoded (snd (run no_model_world sample_ui)) = [].
Proof.
  apply (load_failure_blocks_the_page no_model_world sample_ui file_missing);
    reflexivity.
Defined.

Lemma latitude_none_iff_longitude_none_witness :
  (VNone = VNone <-> VNone = VNone)
  /\ (VFloat 40.7580 = VNone <-> VFloat (-73.9855) = VNone)
  /\ is_None VNone || is_None (VFloat 40.7580)
     = is_None VNone || is_None VNone
       || is_None (VFloat 40.7580) || is_None (VFloat (-73.9855)).
Proof.
  apply (latitude_none_iff_longitude_none sample_world unset unset
           "Select a location..." "Times Square" initial initial initial initial);
    reflexivity.
Defined.

(* ================================================================= *)
(** ** What [except Exception] lets through *)

(** X2: an exception outside [Exception] raised while the model file is
    read leaves [load_model] and [main]: the run ends with that exception
    after the title, the introduction and the file read, and no error
    message is shown. *)
Theorem load_interrupt_propagates (w : world) (ui : widgets) (e : exn) :
  pickle_load w = Raise e ->
  isinstance_Exception (exc_type e) = false ->
  run w ui
  = (Raise e,
     [ StTitle "🚖 Uber Fare Predictor";
       StMarkdown "Predict your Uber fare in NYC based on location and time." false;
       OpenAndUnpickle "model.pkr" ]).
Proof.
  intros Hload He. unfold run, main, load_model, open_and_unpickle, st_title.
  run_step. rewrite Hload. cbn. rewrite He. reflexivity.
Qed.

(** X3: an exception outside [Exception] raised by the geocoder leaves
    [get_coords] and the resolver: after the text field, the spinner and the
    one geocoder call, neither "Geocoding error" nor the warning is shown. *)
Theorem geocoder_interrupt_propagates (w : world) (sd : side) (ui : location_widgets)
  (s : state) (e : exn) :
  str_truthy (custom_value ui) = true ->
  geocode w (geocode_calls s) (custom_value ui) = Raise e ->
  isinstance_Exception (exc_type e) = false ->
  resolve_location w sd ui "Custom Address" s
  = (Raise e,
     mkState (Geocode "uber_fare_app_v1" (custom_value ui)
              :: StSpinner ("Finding " ++ lower sd ++ " location...")
              :: StTextInput ("Enter " ++ Title sd ++ " Address") (lower sd ++ "_custom")
              :: log s)
             (S (geocode_calls s))).
Proof.
  intros Haddr Hraise He. rewrite resolve_location_custom. run_step.
  rewrite Haddr. rewrite (get_coords_interrupt _ _ _ e) by assumption.
  reflexivity.
Qed.

(** X4: an exception outside [Exception] raised by [predict] leaves the
    estimate block: after the one call nothing is shown, neither a fare nor
    "Prediction failed". *)
Theorem predict_interrupt_propagates (m : model)
  (pickup_lat pickup_lon dropoff_lat dropoff_lon : pyval)
  (ride_date : datetime.date) (ride_time : datetime.time) (passengers : Z)
  (s : state) (e : exn) :
  is_None pickup_lat = false -> is_None dropoff_lat = false ->
  model_predict m (feature_row pickup_lat pickup_lon dropoff_lat dropoff_lon
                               ride_date ride_time passengers)
  = Raise e ->
  isinstance_Exception (exc_type e) = false ->
  estimate_fare m pickup_lat pickup_lon dropoff_lat dropoff_lon
                ride_date ride_time passengers s
  = (Raise e,
     mkState (Predict (feature_row pickup_lat pickup_lon dropoff_lat dropoff_lon
                                   ride_date ride_time passengers)
              :: log s)
             (geocode_calls s)).
Proof.
  intros Hp Hd Hout He. rewrite estimate_fare_complete by assumption.
  run_step. rewrite Hout. cbn. rewrite He. reflexivity.
Qed.

(* ================================================================= *)
(** ** Edges of the model check and of the prediction *)

(** X5: when the unpickled object is falsy, [main] returns right after
    the file read: no widget and no message of any kind is shown. *)
Theorem falsy_model_shows_nothing (w : world) (ui : widgets) (m : model) :
  pickle_load w = Ok m -> model_truthy m = false ->
  run w ui
  = (Ok tt,
     [ StTitle "🚖 Uber Fare Predictor";
       StMarkdown "Predict your Uber fare in NYC based on location and time." false;
       OpenAndUnpickle "model.pkr" ]).
Proof.
  intros Hload Hfalsy. unfold run, main, load_model, open_and_unpickle, st_title.
  run_step. rewrite Hload. cbn. rewrite Hfalsy. reflexivity.
Qed.

(** X6: when [predict] returns but its output has no first item, or the
    first item cannot be formatted with ".2f", the exception of that step is
    reported like a failure of [predict] itself: "Prediction failed: ..."
    and the data frame are shown, no fare is, and the block returns
    normally. *)
Theorem unusable_output_is_reported (m : model)
  (pickup_lat pickup_lon dropoff_lat dropoff_lon : pyval)
  (ride_date : datetime.date) (ride_time : datetime.time) (passengers : Z)
  (s : state) (out : list pyval) (e : exn) :
  is_None pickup_lat = false -> is_None dropoff_lat = false ->
  let row := feature_row pickup_lat pickup_lon dropoff_lat dropoff_lon
                         ride_date ride_time passengers in
  model_predict m row = Ok out ->
  shown_fare out = Raise e ->
  estimate_fare m pickup_lat pickup_lon dropoff_lat dropoff_lon
                ride_date ride_time passengers s
  = (Ok tt,
     mkState (StWrite (WFrame row)
              :: StWrite (WStr "Debug info - Input Data:")
              :: StError ("Prediction failed: " ++ exc_str e)
              :: Predict row
              :: log s)
             (geocode_calls s)).
Proof.
  intros Hp Hd row Hout Hshown. rewrite estimate_fare_complete by assumption.
  run_step. fold row. rewrite Hout. cbn. unfold shown_fare in Hshown.
  destruct out as [|fare rest]; cbn in Hshown |- *.
  - injection Hshown as <-. reflexivity.
  - rewrite Hshown. cbn. rewrite (format_f_raises _ _ _ Hshown). reflexivity.
Qed.

(* ================================================================= *)
(** ** More about the resolver *)

(** X8: in custom-address mode, when the geocoder finds the typed
    address, the column returns the latitude and longitude it found, after
    exactly one geocoder call under the user agent "uber_fare_app_v1", shows
    no warning and echoes the pair with six decimals. *)
Theorem found_address_resolves (w : world) (sd : side) (ui : location_widgets)
  (s : state) (lat lon : float) :
  select_value ui = "Custom Address" ->
  str_truthy (custom_value ui) = true ->
  geocode w (geocode_calls s) (custom_value ui) = Ok (Some (lat, lon)) ->
  location_column w sd ui s
  = (Ok (VFloat lat, VFloat lon),
     mkState (StInfo (echo sd lat lon)
              :: Geocode "uber_fare_app_v1" (custom_value ui)
              :: StSpinner ("Finding " ++ lower sd ++ " location...")
              :: StTextInput ("Enter " ++ Title sd ++ " Address") (lower sd ++ "_custom")
              :: log (column_opened sd s))
             (S (geocode_calls s))).
Proof.
  intros Hsel Haddr Hfound. unfold location_column. run_step. rewrite Hsel.
  rewrite resolve_location_custom. run_step. rewrite Haddr.
  rewrite (get_coords_found _ _ _ lat lon) by exact Hfound.
  reflexivity.
Qed.

(* ================================================================= *)
(** ** What is asked of the geocoder *)

Lemma geocoded_app (l1 l2 : list event) :
  geocoded (l1 ++ l2)%list = (geocoded l1 ++ geocoded l2)%list.
Proof. unfold geocoded. apply flat_map_app. Qed.

Lemma geocoded_rev (l : list event) : geocoded (rev l) = rev (geocoded l).
Proof.
  induction l as [|ev l IH]; [reflexivity|].
  cbn [rev]. rewrite geocoded_app, IH.
  destruct ev; cbn; try (rewrite app_nil_r; reflexivity).
  reflexivity.
Qed.

Lemma get_coords_geocoded (w : world) (address : string) (s : state) :
  geocoded (log (snd (get_coords w address s))) = address :: geocoded (log s).
Proof.
  destruct (geocode w (geocode_calls s) address) as [[[x y]|]|e] eqn:Hg.
  - now rewrite (get_coords_found _ _ _ _ _ Hg).
  - now rewrite (get_coords_no_match _ _ _ Hg).
  - destruct (isinstance_Exception (exc_type e)) eqn:He.
    + now rewrite (get_coords_error _ _ _ _ Hg He).
    + now rewrite (get_coords_interrupt _ _ _ _ Hg He).
Qed.

Lemma resolve_location_geocoded (w : world) (sd : side) (ui : location_widgets)
  (option : string) (s : state) :
  geocoded (log (snd (resolve_location w sd ui option s)))
  = ((if (option =? "Custom Address")%string && str_truthy (custom_value ui)
      then [custom_value ui] else []) ++ geocoded (log s))%list.
Proof.
  destruct (String.eqb_spec option "Custom Address") as [->|Hc].
  - rewrite resolve_location_custom. run_step.
    destruct (str_truthy (custom_value ui)); [|reflexivity].
    match goal with |- context [get_coords w ?a ?s0] =>
      pose proof (get_coords_geocoded w a s0) as Hq;
      destruct (get_coords w a s0) as [[[la lo]|e] s1]
    end; cbn in *; [|exact Hq].
    destruct (is_None la); cbn; exact Hq.
  - destruct (String.eqb_spec option "Manual Coordinates") as [->|Hm].
    + now rewrite resolve_location_manual.
    + rewrite resolve_location_table by now apply String.eqb_neq.
      destruct (str_truthy option && _); [|reflexivity].
      destruct (getitem NYC_LOCATIONS option); reflexivity.
Qed.

Lemma column_geocoded (w : world) (sd : side) (ui : location_widgets) (s : state) :
  geocoded (log (snd (location_column w sd ui s)))
  = (geocode_request ui ++ geocoded (log s))%list.
Proof.
  unfold location_column, geocode_request. run_step.
  match goal with |- context [resolve_location w sd ui ?o ?s0] =>
    pose proof (resolve_location_geocoded w sd ui o s0) as Hq;
    destruct (resolve_location w sd ui o s0) as [[[lat lon]|e] s1]
  end; cbn in *; [|exact Hq].
  destruct (negb (is_None lat) && negb (is_None lon)); cbn; [|exact Hq].
  destruct (format_f 6 lat); cbn; [|exact Hq].
  destruct (format_f 6 lon); cbn; exact Hq.
Qed.

(** X9: a column calls the geocoder only in custom-address mode with a
    non-empty text, then exactly once and with the text as typed; in every
    other mode, and whatever happens afterwards, it makes no call. *)
Theorem column_geocodes_typed_text (w : world) (sd : side) (ui : location_widgets)
  (s : state) :
  geocoded (log (snd (location_column w sd ui s)))
  = (geocode_request ui ++ geocoded (log s))%list.
Proof. exact (column_geocoded w sd ui s). Qed.

Lemma estimate_fare_geocoded (m : model)
  (pickup_lat pickup_lon dropoff_lat dropoff_lon : pyval)
  (ride_date : datetime.date) (ride_time : datetime.time) (passengers : Z)
  (s : state) :
  geocoded (log (snd (estimate_fare m pickup_lat pickup_lon dropoff_lat dropoff_lon
                                    ride_date ride_time passengers s)))
  = geocoded (log s).
Proof.
  destruct (is_None pickup_lat || is_None dropoff_lat) eqn:Hcheck.
  - now rewrite estimate_fare_incomplete.
  - apply orb_false_elim in Hcheck as [Hp Hd].
    rewrite estimate_fare_complete by assumption. run_step.
    destruct (model_predict m _) as [[|v rest]|e]; cbn.
    + reflexivity.
    + destruct (format_f 2 v) as [shown|e]; cbn; [reflexivity|].
      destruct (isinstance_Exception (exc_type e)); reflexivity.
    + destruct (isinstance_Exception (exc_type e)); reflexivity.
Qed.

(** X10: in a run with the model loaded, the addresses sent to the
    geocoder are the pickup text and then the dropoff text, each if its
    column is in custom mode with a non-empty text: nothing is remembered
    between the columns, so the same text typed in both is looked up
    twice. *)
Theorem run_geocodes_each_column (w : world) (ui : widgets) (m : model) :
  pickle_load w = Ok m -> model_truthy m = true ->
  In (select_value (pickup ui)) (keys NYC_LOCATIONS) ->
  raises_only_errors (geocode w 0 (custom_value (pickup ui))) ->
  geocoded (snd (run w ui))
  = (geocode_request (pickup ui) ++ geocode_request (dropoff ui))%list.
Proof.
  intros Hload Htruthy Hin Hgeo.
  rewrite run_trace, (main_loaded _ _ _ Hload Htruthy).
  unfold trace. rewrite geocoded_rev.
  destruct (location_column_returns w Pickup (pickup ui) loaded Hin Hgeo)
    as [[plat plon] [s1 Hp]].
  pose proof (column_geocoded w Pickup (pickup ui) loaded) as Hq1.
  rewrite Hp in Hq1. cbn [snd] in Hq1.
  pose proof (column_geocoded w Dropoff (dropoff ui) s1) as Hq2.
  assert (Hlog : geocoded (log (snd (page w ui m loaded)))
                 = (geocode_request (dropoff ui) ++ geocode_request (pickup ui))%list).
  { destruct (location_column w Dropoff (dropoff ui) s1) as [[[dlat dlon]|e] s2] eqn:Hd;
      cbn [snd] in Hq2.
    - destruct (estimate_clicked ui) eqn:Hclick.
      + rewrite (page_clicked _ _ _ _ _ _ _ _ _ _ Hp Hd Hclick).
        rewrite estimate_fare_geocoded. cbn [inputs_shown log geocoded flat_map app].
        fold (geocoded (log s2)). rewrite Hq2, Hq1. cbn. now rewrite app_nil_r.
      + unfold page. rewrite (bind_Ok _ _ _ _ _ Hp), (bind_Ok _ _ _ _ _ Hd).
        unfold st_date_input, st_time_input, st_button. run_step. rewrite Hclick.
        cbn. fold (geocoded (log s2)). rewrite Hq2, Hq1. cbn. now rewrite app_nil_r.
    - unfold page. rewrite (bind_Ok _ _ _ _ _ Hp), (bind_Raise _ _ _ _ _ Hd).
      cbn [snd]. rewrite Hq2, Hq1. cbn. now rewrite app_nil_r. }
  rewrite Hlog, rev_app_distr.
  unfold geocode_request.
  destruct (_ && _), (_ && _); reflexivity.
Qed.

(* ================================================================= *)
(** ** The echo of the coordinates *)

Lemma get_coords_infos (w : world) (address : string) (s : state) :
  infos (log (snd (get_coords w address s))) = infos (log s).
Proof.
  destruct (geocode w (geocode_calls s) address) as [[[x y]|]|e] eqn:Hg.
  - now rewrite (get_coords_found _ _ _ _ _ Hg).
  - now rewrite (get_coords_no_match _ _ _ Hg).
  - destruct (isinstance_Exception (exc_type e)) eqn:He.
    + now rewrite (get_coords_error _ _ _ _ Hg He).
    + now rewrite (get_coords_interrupt _ _ _ _ Hg He).
Qed.

Lemma resolve_location_infos (w : world) (sd : side) (ui : location_widgets)
  (option : string) (s : state) :
  infos (log (snd (resolve_location w sd ui option s))) = infos (log s).
Proof.
  destruct (String.eqb_spec option "Custom Address") as [->|Hc].
  - rewrite resolve_location_custom. run_step.
    destruct (str_truthy (custom_value ui)); [|reflexivity].
    match goal with |- context [get_coords w ?a ?s0] =>
      pose proof (get_coords_infos w a s0) as Hq;
      destruct (get_coords w a s0) as [[[la lo]|e] s1]
    end; cbn in *; [|exact Hq].
    destruct (is_None la); cbn; exact Hq.
  - destruct (String.eqb_spec option "Manual Coordinates") as [->|Hm].
    + now rewrite resolve_location_manual.
    + rewrite resolve_location_table by now apply String.eqb_neq.
      destruct (str_truthy option && _); [|reflexivity].
      destruct (getitem NYC_LOCATIONS option); reflexivity.
Qed.

(** X11: a column that returns shows the "Coordinates:" line exactly
    when it resolved a pair, once, with the latitude and the longitude in
    six decimals; an unresolved column shows no such line. *)
Theorem coordinates_echoed_iff_resolved (w : world) (sd : side) (ui : location_widgets)
  (s s' : state) (lat lon : pyval) :
  location_column w sd ui s = (Ok (lat, lon), s') ->
  (lat = VNone /\ lon = VNone /\ infos (log s') = infos (log s))
  \/ (exists x y, lat = VFloat x /\ lon = VFloat y
                  /\ infos (log s') = echo sd x y :: infos (log s)).
Proof.
  unfold location_column. run_step.
  match goal with |- context [resolve_location w sd ui ?o ?s0] =>
    pose proof (resolve_location_infos w sd ui o s0) as Hq;
    destruct (resolve_location w sd ui o s0) as [[[la lo]|e] s1] eqn:Hres
  end; cbn in *; [|discriminate].
  destruct (resolve_location_shape _ _ _ _ _ _ _ _ Hres) as [[-> ->]|[x [y [-> ->]]]];
    cbn; intros [= <- <- <-].
  - left. repeat split. exact Hq.
  - right. exists x, y. repeat split. cbn. f_equal. exact Hq.
Qed.

(* ================================================================= *)
(** ** What is asked of the predictor *)

Lemma page_requested (w : world) (ui : widgets) (m : model) (s : state) :
  requested (log (snd (page w ui m s))) = requested (log s)
  \/ (exists x1 x2 x3 x4,
        estimate_clicked ui = true
        /\ requested (log (snd (page w ui m s)))
           = feature_row (VFloat x1) (VFloat x2) (VFloat x3) (VFloat x4)
                         (date_value ui) (time_value ui) (passengers_value ui)
             :: requested (log s)).
Proof.
  pose proof (location_column_quiet w Pickup (pickup ui) s) as Hq1.
  destruct (location_column w Pickup (pickup ui) s) as [[[plat plon]|e] s1] eqn:Hp;
    cbn [snd] in Hq1.
  2:{ left. unfold page. rewrite (bind_Raise _ _ _ _ _ Hp). exact Hq1. }
  pose proof (location_column_quiet w Dropoff (dropoff ui) s1) as Hq2.
  destruct (location_column w Dropoff (dropoff ui) s1) as [[[dlat dlon]|e] s2] eqn:Hd;
    cbn [snd] in Hq2.
  2:{ left. unfold page. rewrite (bind_Ok _ _ _ _ _ Hp), (bind_Raise _ _ _ _ _ Hd).
      cbn [snd]. congruence. }
  assert (Hshown : requested (log (inputs_shown s2)) = requested (log s)).
  { cbn. fold (requested (log s2)). congruence. }
  destruct (estimate_clicked ui) eqn:Hclick.
  - rewrite (page_clicked _ _ _ _ _ _ _ _ _ _ Hp Hd Hclick).
    destruct (location_column_shape _ _ _ _ _ _ _ Hp) as [[-> ->]|[x1 [x2 [-> ->]]]].
    { left. now rewrite estimate_fare_incomplete. }
    destruct (location_column_shape _ _ _ _ _ _ _ Hd) as [[-> ->]|[x3 [x4 [-> ->]]]].
    { left. now rewrite estimate_fare_incomplete. }
    right. exists x1, x2, x3, x4. split; [reflexivity|].
    rewrite estimate_fare_requests by reflexivity. now rewrite Hshown.
  - left. unfold page. rewrite (bind_Ok _ _ _ _ _ Hp), (bind_Ok _ _ _ _ _ Hd).
    unfold st_date_input, st_time_input, st_button. run_step. rewrite Hclick.
    exact Hshown.
Qed.

(** X12: in any run the predictor is called at most once, and when it
    is called the model was loaded and truthy, the button was clicked, and
    the data frame has the seven columns in the model's order: four floats
    (never [None]), the passenger count of the widget, the hour of the time
    widget and the weekday of the date widget. *)
Theorem run_requests_at_most_one_row (w : world) (ui : widgets) :
  requested (snd (run w ui)) = []
  \/ (exists m pickup_lat pickup_lon dropoff_lat dropoff_lon,
        pickle_load w = Ok m /\ model_truthy m = true
        /\ estimate_clicked ui = true
        /\ requested (snd (run w ui))
           = [ [ ("pickup_longitude", [VFloat pickup_lon]);
                 ("pickup_latitude", [VFloat pickup_lat]);
                 ("dropoff_longitude", [VFloat dropoff_lon]);
                 ("dropoff_latitude", [VFloat dropoff_lat]);
                 ("passenger_count", [VInt (passengers_value ui)]);
                 ("hour", [VInt (datetime.time_hour (time_value ui))]);
                 ("day_of_week",
                  [VInt (datetime.weekday
                           (datetime.combine (date_value ui) (time_value ui)))]) ] ]).
Proof.
  rewrite run_trace. unfold trace. rewrite requested_rev.
  destruct (pickle_load w) as [m|e] eqn:Hload.
  - destruct (model_truthy m) eqn:Htruthy.
    + rewrite (main_loaded _ _ _ Hload Htruthy).
      destruct (page_requested w ui m loaded) as [Hq|[x1 [x2 [x3 [x4 [Hclick Hq]]]]]];
        rewrite Hq.
      * left. reflexivity.
      * right. exists m, x1, x2, x3, x4. repeat split; assumption || reflexivity.
    + left. unfold main, load_model, open_and_unpickle, st_title. run_step.
      rewrite Hload. cbn. rewrite Htruthy. reflexivity.
  - left. unfold main, load_model, open_and_unpickle, st_title. run_step.
    rewrite Hload. cbn.
    destruct (isinstance_Exception (exc_type e)); [|reflexivity].
    destruct (isinstance_FileNotFoundError (exc_type e)); reflexivity.
Qed.

Lemma location_column_manual_mode (w : world) (sd : side) (ui : location_widgets)
  (s : state) :
  select_value ui = "Manual Coordinates" ->
  exists s',
    location_column w sd ui s
    = (Ok (VFloat (lat_input_value ui), VFloat (lon_input_value ui)), s')
    /\ geocoded (log s') = geocoded (log s).
Proof.
  intros Hsel. destruct ui as [sel custom lat lon]. cbn in Hsel. subst sel.
  eexists. split; reflexivity.
Qed.

(** X13: with both columns in manual mode, the model loaded and the
    button clicked, the estimate is never refused: the predictor is called
    once, each coordinate column holding the number entered in its field and
    passenger_count the number of the widget, whatever they are (no range
    check), and the geocoder is not called. *)
Theorem manual_coordinates_pass_unchecked (w : world) (ui : widgets) (m : model) :
  pickle_load w = Ok m -> model_truthy m = true ->
  estimate_clicked ui = true ->
  select_value (pickup ui) = "Manual Coordinates" ->
  select_value (dropoff ui) = "Manual Coordinates" ->
  requested (snd (run w ui))
  = [ [ ("pickup_longitude", [VFloat (lon_input_value (pickup ui))]);
        ("pickup_latitude", [VFloat (lat_input_value (pickup ui))]);
        ("dropoff_longitude", [VFloat (lon_input_value (dropoff ui))]);
        ("dropoff_latitude", [VFloat (lat_input_value (dropoff ui))]);
        ("passenger_count", [VInt (passengers_value ui)]);
        ("hour", [VInt (datetime.time_hour (time_value ui))]);
        ("day_of_week",
         [VInt (datetime.weekday
                  (datetime.combine (date_value ui) (time_value ui)))]) ] ]
  /\ geocoded (snd (run w ui)) = [].
Proof.
  intros Hload Htruthy Hclick Hpick Hdrop.
  destruct (location_column_manual_mode w Pickup (pickup ui) loaded Hpick)
    as [s1 [Hp Hg1]].
  destruct (location_column_manual_mode w Dropoff (dropoff ui) s1 Hdrop)
    as [s2 [Hd Hg2]].
  pose proof (location_column_quiet w Pickup (pickup ui) loaded) as Hq1.
  pose proof (location_column_quiet w Dropoff (dropoff ui) s1) as Hq2.
  rewrite Hp in Hq1. rewrite Hd in Hq2. cbn [snd] in Hq1, Hq2.
  rewrite run_trace, (main_loaded _ _ _ Hload Htruthy).
  rewrite (page_clicked _ _ _ _ _ _ _ _ _ _ Hp Hd Hclick).
  unfold trace. rewrite requested_rev, geocoded_rev. split.
  - rewrite estimate_fare_requests by reflexivity.
    cbn [inputs_shown log requested flat_map app]. fold (requested (log s2)).
    rewrite Hq2, Hq1. reflexivity.
  - rewrite estimate_fare_geocoded.
    cbn [inputs_shown log geocoded flat_map app]. fold (geocoded (log s2)).
    rewrite Hg2, Hg1. reflexivity.
Qed.

(* ================================================================= *)
(** ** The weekday of every date *)

Lemma days_before_next_year (y : Z) :
  datetime._days_before_year (y + 1)
  = datetime._days_before_year y + 365 + (if datetime._is_leap y then 1 else 0).
Proof.
  unfold datetime._days_before_year, datetime._is_leap.
  replace (y + 1 - 1) with y by lia.
  destruct (Z.eqb_spec (y mod 4) 0), (Z.eqb_spec (y mod 100) 0),
    (Z.eqb_spec (y mod 400) 0); cbn [andb orb negb];
    Z.to_euclidean_division_equations; lia.
Qed.

Lemma days_before_next_month (y m : Z) :
  1 <= m < 12 ->
  datetime._days_before_month y (m + 1)
  = datetime._days_before_month y m + datetime._days_in_month y m.
Proof.
  intros Hm.
  assert (Hcases : m = 1 \/ m = 2 \/ m = 3 \/ m = 4 \/ m = 5 \/ m = 6 \/ m = 7
                   \/ m = 8 \/ m = 9 \/ m = 10 \/ m = 11) by lia.
  unfold datetime._days_before_month, datetime._days_in_month.
  destruct Hcases as [->|[->|[->|[->|[->|[->|[->|[->|[->|[->| ->]]]]]]]]]];
    destruct (datetime._is_leap y); reflexivity.
Qed.

Lemma days_before_january (y : Z) : datetime._days_before_month y 1 = 0.
Proof.
  unfold datetime._days_before_month. now destruct (datetime._is_leap y).
Qed.

Lemma days_before_december (y : Z) :
  datetime._days_before_month y 12 = 334 + (if datetime._is_leap y then 1 else 0).
Proof.
  unfold datetime._days_before_month. now destruct (datetime._is_leap y).
Qed.

Lemma days_in_december (y : Z) : datetime._days_in_month y 12 = 31.
Proof. reflexivity. Qed.

Lemma weekday_of_next_ordinal (a b : datetime.datetime) :
  datetime.toordinal a = datetime.toordinal b + 1 ->
  datetime.weekday a = (datetime.weekday b + 1) mod 7.
Proof.
  intros H. unfold datetime.weekday. rewrite H.
  rewrite Z.add_mod_idemp_l by lia. f_equal. lia.
Qed.

(** X14: for every date with month and day in range, the day after has
    the next ordinal, also across the end of a month, of February in leap and
    common years, and of the year; so its weekday is the next one, with
    Monday (0) following Sunday (6). *)
Theorem weekday_of_tomorrow (d : datetime.date) (t : datetime.time) :
  date_ok d = true ->
  datetime.toordinal (datetime.combine (tomorrow d) t)
  = datetime.toordinal (datetime.combine d t) + 1
  /\ datetime.weekday (datetime.combine (tomorrow d) t)
     = (datetime.weekday (datetime.combine d t) + 1) mod 7.
Proof.
  intros Hok.
  assert (Hord : datetime.toordinal (datetime.combine (tomorrow d) t)
                 = datetime.toordinal (datetime.combine d t) + 1).
  { destruct d as [y m dd]. unfold date_ok in Hok.
    cbn [datetime.date_year datetime.date_month datetime.date_day] in Hok.
    apply andb_prop in Hok as [Hok Hdim].
    apply andb_prop in Hok as [Hok Hd1].
    apply andb_prop in Hok as [Hm1 Hm12].
    apply Z.leb_le in Hm1, Hm12, Hd1, Hdim.
    unfold tomorrow.
    cbn [datetime.date_year datetime.date_month datetime.date_day].
    destruct (Z.ltb_spec dd (datetime._days_in_month y m)) as [Hlt|Hge].
    - unfold datetime.toordinal, datetime._ymd2ord, datetime.combine.
      cbn [datetime.year datetime.month datetime.day
           datetime.date_year datetime.date_month datetime.date_day].
      lia.
    - destruct (Z.ltb_spec m 12) as [Hm|Hm];
        unfold datetime.toordinal, datetime._ymd2ord, datetime.combine;
        cbn [datetime.year datetime.month datetime.day
             datetime.date_year datetime.date_month datetime.date_day].
      + rewrite days_before_next_month by lia. lia.
      + assert (m = 12) by lia. subst m.
        rewrite days_before_next_year, days_before_january, days_before_december.
        rewrite days_in_december in Hge, Hdim. lia. }
  split; [exact Hord|]. now apply weekday_of_next_ordinal.
Qed.

(* ================================================================= *)
(** ** These theorems at sample inputs *)

Lemma failures_are_caught_witness :
  ((exists loaded_model s', load_model broken_world initial = (Ok loaded_model, s'))
   /\ fst (page broken_world typed_pickup_ui failing_model initial) = Ok tt)
  /\ ((exists loaded_model s', load_model sample_world initial = (Ok loaded_model, s'))
      /\ fst (page sample_world sample_ui failing_model initial) = Ok tt)
  /\ In (StError "Geocoding error: Service timed out")
        (log (snd (page broken_world typed_pickup_ui failing_model initial)))
  /\ In (StError "Prediction failed: X has 7 features, but LinearRegression is expecting 6 features as input.")
        (log (snd (page sample_world sample_ui failing_model initial)))
  /\ In (StError "Model file 'model.pkr' not found. Please ensure it is in the same directory.")
        (log (snd (load_model broken_world initial))).
Proof.
  split; [|split; [|split; [|split]]].
  - apply (failures_are_caught broken_world typed_pickup_ui failing_model initial).
    + intros e [= <-]. reflexivity.
    + intros n address e [= <-]. reflexivity.
    + intros input_data e [= <-]. reflexivity.
    + simpl. tauto.
    + simpl. tauto.
  - apply (failures_are_caught sample_world sample_ui failing_model initial).
    + intros e. discriminate.
    + intros n address e. discriminate.
    + intros input_data e [= <-]. reflexivity.
    + simpl. tauto.
    + simpl. tauto.
  - vm_compute. tauto.
  - vm_compute. tauto.
  - vm_compute. tauto.
Defined.

Lemma load_interrupt_propagates_witness :
  run interrupted_load_world sample_ui
  = (Raise interrupt,
     [ StTitle "🚖 Uber Fare Predictor";
       StMarkdown "Predict your Uber fare in NYC based on location and time." false;
       OpenAndUnpickle "model.pkr" ]).
Proof.
  apply (load_interrupt_propagates interrupted_load_world sample_ui interrupt);
    reflexivity.
Defined.

Lemma geocoder_interrupt_propagates_witness :
  resolve_location interrupted_geocoder_world Pickup (typed "1 Nowhere Lane")
                   "Custom Address" initial
  = (Raise interrupt,
     mkState (Geocode "uber_fare_app_v1" (custom_value (typed "1 Nowhere Lane"))
              :: StSpinner ("Finding " ++ lower Pickup ++ " location...")
              :: StTextInput ("Enter " ++ Title Pickup ++ " Address")
                             (lower Pickup ++ "_custom")
              :: log initial)
             (S (geocode_calls initial))).
Proof.
  apply (geocoder_interrupt_propagates interrupted_geocoder_world Pickup
           (typed "1 Nowhere Lane") initial interrupt);
    reflexivity.
Defined.

Lemma predict_interrupt_propagates_witness :
  estimate_fare interrupted_model
                (VFloat 40.75) (VFloat (-73.99)) (VFloat 40.76) (VFloat (-73.97))
                sample_date sample_time 2 initial
  = (Raise interrupt,
     mkState (Predict (feature_row (VFloat 40.75) (VFloat (-73.99))
                                   (VFloat 40.76) (VFloat (-73.97))
                                   sample_date sample_time 2)
              :: log initial)
             (geocode_calls initial)).
Proof.
  apply (predict_interrupt_propagates interrupted_model
           (VFloat 40.75) (VFloat (-73.99)) (VFloat 40.76) (VFloat (-73.97))
           sample_date sample_time 2 initial interrupt);
    reflexivity.
Defined.

Lemma falsy_model_shows_nothing_witness :
  run falsy_world sample_ui
  = (Ok tt,
     [ StTitle "🚖 Uber Fare Predictor";
       StMarkdown "Predict your Uber fare in NYC based on location and time." false;
       OpenAndUnpickle "model.pkr" ]).
Proof.
  apply (falsy_model_shows_nothing falsy_world sample_ui
           (mkModel false (fun _ => Ok [VFloat 23.45])));
    reflexivity.
Defined.

Lemma unusable_output_is_reported_witness :
  estimate_fare (constant_model (Ok []))
                (VFloat 40.75) (VFloat (-73.99)) (VFloat 40.76) (VFloat (-73.97))
                sample_date sample_time 2 initial
  = (Ok tt,
     mkState (StWrite (WFrame (feature_row (VFloat 40.75) (VFloat (-73.99))
                                           (VFloat 40.76) (VFloat (-73.97))
                                           sample_date sample_time 2))
              :: StWrite (WStr "Debug info - Input Data:")
              :: StError ("Prediction failed: "
                          ++ "index 0 is out of bounds for axis 0 with size 0")
              :: Predict (feature_row (VFloat 40.75) (VFloat (-73.99))
                                      (VFloat 40.76) (VFloat (-73.97))
                                      sample_date sample_time 2)
              :: log initial)
             (geocode_calls initial)).
Proof.
  apply (unusable_output_is_reported (constant_model (Ok []))
           (VFloat 40.75) (VFloat (-73.99)) (VFloat 40.76) (VFloat (-73.97))
           sample_date sample_time 2 initial []
           (mkExn IndexError "index 0 is out of bounds for axis 0 with size 0"));
    reflexivity.
Defined.

Lemma found_address_resolves_witness :
  location_column times_square_world Dropoff (typed "Times Square, New York") initial
  = (Ok (VFloat 40.7580, VFloat (-73.9855)),
     mkState (StInfo (echo Dropoff 40.7580 (-73.9855))
              :: Geocode "uber_fare_app_v1"
                         (custom_value (typed "Times Square, New York"))
              :: StSpinner ("Finding " ++ lower Dropoff ++ " location...")
              :: StTextInput ("Enter " ++ Title Dropoff ++ " Address")
                             (lower Dropoff ++ "_custom")
              :: log (column_opened Dropoff initial))
             (S (geocode_calls initial))).
Proof.
  apply (found_address_resolves times_square_world Dropoff
           (typed "Times Square, New York") initial 40.7580 (-73.9855));
    reflexivity.
Defined.

Lemma run_geocodes_each_column_witness :
  geocoded (snd (run times_square_world typed_twice_ui))
  = ["Times Square, New York"; "Times Square, New York"].
Proof.
  apply (run_geocodes_each_column times_square_world typed_twice_ui
           (constant_model (Ok [VFloat 23.45]))).
  - reflexivity.
  - reflexivity.
  - simpl. tauto.
  - intros e. discriminate.
Defined.

Lemma coordinates_echoed_iff_resolved_witness :
  (VFloat 40.75 = VNone /\ VFloat (-73.99) = VNone
   /\ infos (log (snd (location_column sample_world Pickup
                                       (manual 40.75 (-73.99)) initial)))
      = infos (log initial))
  \/ (exists x y,
        VFloat 40.75 = VFloat x /\ VFloat (-73.99) = VFloat y
        /\ infos (log (snd (location_column sample_world Pickup
                                            (manual 40.75 (-73.99)) initial)))
           = echo Pickup x y :: infos (log initial)).
Proof.
  apply (coordinates_echoed_iff_resolved sample_world Pickup
           (manual 40.75 (-73.99)) initial).
  reflexivity.
Defined.

Lemma manual_coordinates_pass_unchecked_witness :
  requested (snd (run sample_world far_away_ui))
  = [ [ ("pickup_longitude", [VFloat (-500)]);
        ("pickup_latitude", [VFloat 1000]);
        ("dropoff_longitude", [VFloat infinity]);
        ("dropoff_latitude", [VFloat nan]);
        ("passenger_count", [VInt 99]);
        ("hour", [VInt 14]);
        ("day_of_week", [VInt 0]) ] ]
  /\ geocoded (snd (run sample_world far_away_ui)) = [].
Proof.
  apply (manual_coordinates_pass_unchecked sample_world far_away_ui
           (constant_model (Ok [VFloat 23.45])));
    reflexivity.
Defined.

Lemma weekday_of_tomorrow_witness :
  datetime.toordinal (datetime.combine (tomorrow (datetime.mkDate 2024 2 29)) sample_time)
  = datetime.toordinal (datetime.combine (datetime.mkDate 2024 2 29) sample_time) + 1
  /\ datetime.weekday (datetime.combine (tomorrow (datetime.mkDate 2024 2 29)) sample_time)
     = (datetime.weekday (datetime.combine (datetime.mkDate 2024 2 29) sample_time) + 1)
       mod 7.
Proof.
  apply (weekday_of_tomorrow (datetime.mkDate 2024 2 29) sample_time).
  reflexivity.
Defined.
